(** * GameServerEC2Discord: the interaction-dispatch protocol

    A shallow embedding of the two Lambda handlers of the repository,

    - [base_global/lambda/handle-interaction/handler.py] (module [Dispatcher]),
    - [base_global/lambda/manage-instance/handler.py]   (module [Executor]),

    together with the fragment of Python's dynamic semantics they rely on
    (module [Py]).  Library code that the handlers call but that is not
    part of the repository (PyNaCl, [json], [base64], boto3, urllib) is
    taken as an environment record of functions; every call that leaves
    the process is recorded in a trace of [action]s. *)

From Stdlib Require Import ZArith List String Ascii Strings.Byte Bool Lia.
From Stdlib Require Import Floats.SpecFloat Numbers.DecimalString.
Import ListNotations.

Set Warnings "-register-all".

Local Open Scope string_scope.
Local Open Scope Z_scope.
Local Open Scope list_scope.

(* ===================================================================== *)
(** ** Python values, exceptions and the effect monad                     *)
(* ===================================================================== *)

Module Py.

(** [bytes] objects. *)
Definition bytes := list byte.

(** The exceptions that can travel through the two handlers.  Only the
    classes the handlers name in an [except] clause, and the ones raised
    by the builtins modelled below, are told apart. *)
Inductive exn : Type :=
| ValueError
| TypeError
| AttributeError
| KeyError
| IndexError
| UnicodeDecodeError
| BinasciiError
| BadSignatureError
| JSONDecodeError
| ClientError (message : string)
| HTTPError (code : Z) (payload : bytes)
| URLError
| OtherError (name : string).

(** The outcome of evaluating a Python expression: a value or a raised
    exception. *)
Inductive result (A : Type) : Type :=
| Ok (a : A)
| Raise (e : exn).
Arguments Ok {A} a.
Arguments Raise {A} e.

(** Values produced by [json.loads] (and therefore everything found in an
    interaction or in a channel message).  A [str] is kept as the string
    of its UTF-8 bytes; a [dict] as the association list of its items. *)
Inductive pyval : Type :=
| PNone
| PBool (b : bool)
| PInt (z : Z)
| PFloat (f : spec_float)
| PStr (s : string)
| PList (l : list pyval)
| PDict (d : list (string * pyval)).

Inductive level : Type := INFO | WARNING | ERROR.

(** What a handler does to the outside world, in program order. *)
Inductive action : Type :=
| Log (lvl : level) (fmt : string) (args : list pyval)
| JsonLoads (text : string)
| SnsPublish (topic : string) (message : string)
| Ec2Client (region : pyval)
| Ec2Describe (region : pyval) (server_id : pyval)
| Ec2Start (region : pyval) (instance_id : string)
| Ec2Stop (region : pyval) (instance_id : string)
| Ec2Reboot (region : pyval) (instance_id : string)
| HttpPatch (url : string) (data : bytes) (headers : list (string * string)).

(** A run of effectful code: the actions performed, then how it ended.
    The trace survives an exception. *)
Definition run (A : Type) : Type := (list action * result A)%type.

Definition ret {A} (a : A) : run A := ([], Ok a).

Definition raise {A} (e : exn) : run A := ([], Raise e).

Definition lift {A} (r : result A) : run A := ([], r).

Definition emit (a : action) : run unit := ([a], Ok tt).

Definition bind {A B} (m : run A) (k : A -> run B) : run B :=
  match m with
  | (t, Ok a) => let (t', r) := k a in (t ++ t', r)
  | (t, Raise e) => (t, Raise e)
  end.

(** [try: m  except <classes selected by h>: h e]. *)
Definition try_except {A} (m : run A) (h : exn -> option (run A)) : run A :=
  match m with
  | (t, Ok a) => (t, Ok a)
  | (t, Raise e) =>
      match h e with
      | Some k => let (t', r) := k in (t ++ t', r)
      | None => (t, Raise e)
      end
  end.

(** An external call [a] that ended as [r]. *)
Definition invoke {A} (a : action) (r : result A) : run A := ([a], r).

(** An external call without a result: it completes or raises. *)
Definition call (a : action) (failure : option exn) : run unit :=
  invoke a match failure with
           | None => Ok tt
           | Some e => Raise e
           end.

Definition trace {A} (m : run A) : list action := fst m.
Definition outcome {A} (m : run A) : result A := snd m.

(** The pure fragment: results without a trace. *)
Definition rbind {A B} (r : result A) (k : A -> result B) : result B :=
  match r with
  | Ok a => k a
  | Raise e => Raise e
  end.

(** *** Truth value, [==], [in], [.get], iteration *)

Definition float_is_zero (f : spec_float) : bool :=
  match f with
  | S754_zero _ => true
  | _ => false
  end.

(** [bool(v)]. *)
Definition truthy (v : pyval) : bool :=
  match v with
  | PNone => false
  | PBool b => b
  | PInt z => negb (z =? 0)
  | PFloat f => negb (float_is_zero f)
  | PStr s => negb (s =? "")%string
  | PList l => match l with [] => false | _ => true end
  | PDict d => match d with [] => false | _ => true end
  end.

(** [all(vs)]. *)
Definition all (vs : list pyval) : bool := forallb truthy vs.

(** [f == n] for a float [f] and an int [n]: exact comparison. *)
Definition float_eq_int (f : spec_float) (n : Z) : bool :=
  match f with
  | S754_zero _ => n =? 0
  | S754_infinity _ => false
  | S754_nan => false
  | S754_finite s m e =>
      let mz := if s then Z.neg m else Z.pos m in
      if 0 <=? e then mz * 2 ^ e =? n else mz =? n * 2 ^ (- e)
  end.

(** [v == n] for an int constant [n]; [True == 1] and [1.0 == 1] hold. *)
Definition eq_int (v : pyval) (n : Z) : bool :=
  match v with
  | PInt z => z =? n
  | PBool b => (if b then 1 else 0) =? n
  | PFloat f => float_eq_int f n
  | _ => false
  end.

(** [v == s] for a str constant [s]. *)
Definition eq_str (v : pyval) (s : string) : bool :=
  match v with
  | PStr t => (t =? s)%string
  | _ => false
  end.

Fixpoint lookup (k : string) (d : list (string * pyval)) : option pyval :=
  match d with
  | [] => None
  | (k', v) :: d' => if (k' =? k)%string then Some v else lookup k d'
  end.

(** [d.get(k, default)] on a dict. *)
Definition dict_get (d : list (string * pyval)) (k : string) (default : pyval)
  : pyval :=
  match lookup k d with
  | Some v => v
  | None => default
  end.

(** [v.get(k, default)] on any value: only a dict has the method. *)
Definition get (v : pyval) (k : string) (default : pyval) : result pyval :=
  match v with
  | PDict d => Ok (dict_get d k default)
  | _ => Raise AttributeError
  end.

Definition has_key (k : string) (d : list (string * pyval)) : bool :=
  match lookup k d with
  | Some _ => true
  | None => false
  end.

(** [s.partition(sep)] when [sep] occurs: the text before the first
    occurrence and the text after it. *)
Fixpoint partition (sep s : string) : option (string * string) :=
  if prefix sep s
  then Some ("", substring (String.length sep)
                           (String.length s - String.length sep)%nat s)
  else match s with
       | EmptyString => None
       | String c r =>
           match partition sep r with
           | Some (a, b) => Some (String c a, b)
           | None => None
           end
       end.

(** [sep in s] for two strs. *)
Definition str_contains (sep s : string) : bool :=
  match partition sep s with
  | Some _ => true
  | None => false
  end.

(** [s.count(c)] for a one-character [c]. *)
Fixpoint count (c : ascii) (s : string) : nat :=
  match s with
  | EmptyString => O
  | String x r => if Ascii.eqb x c then S (count c r) else count c r
  end.

(** [s.split(sep, 1)]. *)
Definition str_split1 (sep s : string) : list string :=
  match partition sep s with
  | Some (a, b) => [a; b]
  | None => [s]
  end.

(** [needle in v]: substring test on a str, element test on a list, key
    test on a dict, [TypeError] on anything else. *)
Definition contains (needle : string) (v : pyval) : result bool :=
  match v with
  | PStr s => Ok (str_contains needle s)
  | PList l => Ok (existsb (fun x => eq_str x needle) l)
  | PDict d => Ok (has_key needle d)
  | _ => Raise TypeError
  end.

(** [v.split(sep, 1)]: a str method only. *)
Definition split1 (sep : string) (v : pyval) : result (list string) :=
  match v with
  | PStr s => Ok (str_split1 sep s)
  | _ => Raise AttributeError
  end.

(** [a, b = xs]. *)
Definition unpack2 {A} (xs : list A) : result (A * A) :=
  match xs with
  | [a; b] => Ok (a, b)
  | _ => Raise ValueError
  end.

(** The elements a [for] loop visits.  A str yields one-character strs
    (here one per byte of its UTF-8 form), a dict its keys. *)
Definition iter (v : pyval) : result (list pyval) :=
  match v with
  | PList l => Ok l
  | PDict d => Ok (map (fun kv => PStr (fst kv)) d)
  | PStr s => Ok (map (fun c => PStr (String c "")) (list_ascii_of_string s))
  | _ => Raise TypeError
  end.

(** [v[0]]. *)
Definition index0 (v : pyval) : result pyval :=
  match v with
  | PList (x :: _) => Ok x
  | PList [] => Raise IndexError
  | PStr (String c _) => Ok (PStr (String c ""))
  | PStr EmptyString => Raise IndexError
  | PDict _ => Raise KeyError
  | _ => Raise TypeError
  end.

(** *** str and bytes builtins *)

Definition ascii_lower (c : ascii) : ascii :=
  let n := N_of_ascii c in
  if ((65 <=? n) && (n <=? 90))%N then ascii_of_N (n + 32) else c.

(** [s.lower()] for a str of ASCII characters.  On other characters
    Python's [lower] follows Unicode (the Kelvin sign U+212A becomes [k]);
    here their bytes are left as they are, so the function stands for
    [lower] only on ASCII strs, and in a test [key.lower() == name] only
    when [name] is ASCII without the letter [k] or [key] is ASCII too. *)
Fixpoint lower (s : string) : string :=
  match s with
  | EmptyString => EmptyString
  | String c r => String (ascii_lower c) (lower r)
  end.

(** [s.encode("utf-8")]: a str is already held as its UTF-8 bytes. *)
Definition encode_utf8 (s : string) : bytes := list_byte_of_string s.

Definition continuation (b : N) : bool := ((128 <=? b) && (b <=? 191))%N.

(** Well-formed UTF-8 (no overlong forms, no surrogates, at most U+10FFFF). *)
Fixpoint utf8_valid (l : list N) : bool :=
  match l with
  | [] => true
  | b0 :: r =>
      if (b0 <? 128)%N then utf8_valid r
      else if ((194 <=? b0) && (b0 <=? 223))%N then
        match r with
        | b1 :: r1 => continuation b1 && utf8_valid r1
        | _ => false
        end
      else if ((224 <=? b0) && (b0 <=? 239))%N then
        match r with
        | b1 :: b2 :: r2 =>
            (if (b0 =? 224)%N then (160 <=? b1) && (b1 <=? 191)
             else if (b0 =? 237)%N then (128 <=? b1) && (b1 <=? 159)
             else continuation b1)%N
            && continuation b2 && utf8_valid r2
        | _ => false
        end
      else if ((240 <=? b0) && (b0 <=? 244))%N then
        match r with
        | b1 :: b2 :: b3 :: r3 =>
            (if (b0 =? 240)%N then (144 <=? b1) && (b1 <=? 191)
             else if (b0 =? 244)%N then (128 <=? b1) && (b1 <=? 143)
             else continuation b1)%N
            && continuation b2 && continuation b3 && utf8_valid r3
        | _ => false
        end
      else false
  end.

(** [b.decode("utf-8")]. *)
Definition decode_utf8 (b : bytes) : result string :=
  if utf8_valid (map Byte.to_N b) then Ok (string_of_list_byte b)
  else Raise UnicodeDecodeError.

Definition is_space (c : ascii) : bool :=
  let n := N_of_ascii c in ((n =? 32) || ((9 <=? n) && (n <=? 13)))%N.

Definition hex_digit (c : ascii) : option N :=
  let n := N_of_ascii c in
  if ((48 <=? n) && (n <=? 57))%N then Some (n - 48)%N
  else if ((97 <=? n) && (n <=? 102))%N then Some (n - 87)%N
  else if ((65 <=? n) && (n <=? 70))%N then Some (n - 55)%N
  else None.

Definition byte_of_nibbles (hi lo : N) : byte :=
  match Byte.of_N (16 * hi + lo) with
  | Some b => b
  | None => x00
  end.

(** The scanning loop of [bytes.fromhex]: white space is skipped between
    bytes, every byte is two hexadecimal digits; anything else is refused. *)
Fixpoint fromhex_scan (l : list ascii) : option bytes :=
  match l with
  | [] => Some []
  | c :: r =>
      if is_space c then fromhex_scan r
      else
        match hex_digit c, r with
        | Some hi, d :: r' =>
            match hex_digit d, fromhex_scan r' with
            | Some lo, Some bs => Some (byte_of_nibbles hi lo :: bs)
            | _, _ => None
            end
        | _, _ => None
        end
  end.

(** [bytes.fromhex(s)]. *)
Definition fromhex (s : string) : result bytes :=
  match fromhex_scan (list_ascii_of_string s) with
  | Some bs => Ok bs
  | None => Raise ValueError
  end.

(** [str(z)] for an int. *)
Definition str_of_int (z : Z) : string := NilZero.string_of_int (Z.to_int z).

(** The line feed, and [sep.join(lines)]. *)
Definition nl : string := String (ascii_of_nat 10) "".

Definition join (sep : string) (lines : list string) : string :=
  String.concat sep lines.

Declare Scope py_scope.
Delimit Scope py_scope with py.

Notation "x <- m ;; k" := (bind m (fun x => k))
  (at level 61, m at next level, right associativity) : py_scope.
Notation "m ;; k" := (bind m (fun _ => k))
  (at level 61, right associativity) : py_scope.
Notation "x <~ r ;; k" := (rbind r (fun x => k))
  (at level 61, r at next level, right associativity) : py_scope.

End Py.

(* ===================================================================== *)
(** ** handle-interaction/handler.py: the dispatcher                      *)
(* ===================================================================== *)

Module Dispatcher.
Import Py.
Local Open Scope py_scope.

(** The [body] of a Lambda event: a str, or (the handler allows for it) a
    bytes object. *)
Inductive body_t : Type :=
| BodyStr (s : string)
| BodyBytes (b : bytes).

(** The keys of the Lambda event the handler reads. *)
Record Event : Type := {
  ev_body : option body_t;
  ev_isBase64Encoded : bool;
  ev_headers : option (list (string * string))
}.

(** The dict returned to the HTTP front end. *)
Record Response : Type := {
  statusCode : Z;
  headers : list (string * string);
  body : string
}.

(** Process configuration and the library calls of the module:
    [base64.b64decode], PyNaCl's [VerifyKey(...)] and [VerifyKey.verify]
    ([None] when the call returns, [Some e] when it raises [e]),
    [json.loads], [json.dumps] and the SNS client's [publish]. *)
Record Env : Type := {
  DISCORD_APP_PUBLIC_KEY : string;
  MANAGER_INSTRUCTION_SNS_TOPIC_ARN : string;
  b64decode : body_t -> result bytes;
  VerifyKey : bytes -> option exn;
  verify : bytes -> bytes -> bytes -> option exn;
  json_loads : string -> result pyval;
  json_dumps : pyval -> string;
  sns_publish : string -> string -> option exn
}.

Definition PING_INTERACTION : Z := 1.
Definition APPLICATION_COMMAND_INTERACTION : Z := 2.
Definition DEFERRED_CHANNEL_MESSAGE_WITH_SOURCE : Z := 5.

Section Handler.

Variable env : Env.

Definition _json_response (status_code : Z) (payload : pyval) : Response :=
  {| statusCode := status_code;
     headers := [("content-type", "application/json")];
     body := json_dumps env payload |}.

Fixpoint _get_header_items (items : list (string * string)) (lowercase : string)
  : option string :=
  match items with
  | [] => None
  | (key, value) :: rest =>
      if negb (key =? "")%string && (lower key =? lowercase)%string
      then Some value
      else _get_header_items rest lowercase
  end.

Definition _get_header (hdrs : option (list (string * string))) (name : string)
  : option string :=
  match hdrs with
  | None => None
  | Some [] => None
  | Some items => _get_header_items items (lower name)
  end.

Definition body_truthy (b : body_t) : bool :=
  match b with
  | BodyStr s => negb (s =? "")%string
  | BodyBytes l => match l with [] => false | _ => true end
  end.

Definition _get_body_bytes (event : Event) : result bytes :=
  let body :=
    match ev_body event with
    | Some b => if body_truthy b then b else BodyStr ""
    | None => BodyStr ""
    end in
  if ev_isBase64Encoded event then b64decode env body
  else match body with
       | BodyBytes b => Ok b
       | BodyStr s => Ok (encode_utf8 s)
       end.

Definition header_truthy (h : option string) : bool :=
  match h with
  | Some s => negb (s =? "")%string
  | None => false
  end.

Definition _verify_request (event : Event) (body_bytes : bytes) : result bool :=
  let signature := _get_header (ev_headers event) "x-signature-ed25519" in
  let timestamp := _get_header (ev_headers event) "x-signature-timestamp" in
  match signature, timestamp with
  | Some sig, Some ts =>
      if negb (header_truthy signature) || negb (header_truthy timestamp)
      then Ok false
      else
        key <~ fromhex (DISCORD_APP_PUBLIC_KEY env) ;;
        match VerifyKey env key with
        | Some e => Raise e
        | None =>
            (* try: verify_key.verify(...); return True
               except BadSignatureError: return False *)
            match
              (sig_bytes <~ fromhex sig ;;
               match verify env key (encode_utf8 ts ++ body_bytes) sig_bytes with
               | None => Ok true
               | Some e => Raise e
               end)
            with
            | Raise BadSignatureError => Ok false
            | r => r
            end
        end
  | _, _ => Ok false
  end.

Fixpoint _find_server_option (options : list pyval) : result pyval :=
  match options with
  | [] => Ok PNone
  | option :: rest =>
      name <~ get option "name" PNone ;;
      if eq_str name "server" then get option "value" PNone
      else _find_server_option rest
  end.

Definition _find_server_option_value (interaction : pyval) : result pyval :=
  data <~ get interaction "data" (PDict []) ;;
  opts <~ get data "options" PNone ;;
  options <~ iter (if truthy opts then opts else PList []) ;;
  _find_server_option options.

Definition sns_message
  (command interaction_id interaction_token : pyval) (region server_id : string)
  : pyval :=
  PDict [("interactionId", interaction_id);
         ("interactionToken", interaction_token);
         ("command", command);
         ("serverId", PStr server_id);
         ("region", PStr region);
         ("instanceRegion", PStr region)].

Definition _publish_sns_message
  (command interaction_id interaction_token : pyval) (region server_id : string)
  : run unit :=
  emit (Log INFO
          "Publishing %s command for server %s in region %s (interaction %s)"
          [command; PStr server_id; PStr region; interaction_id]) ;;
  let topic := MANAGER_INSTRUCTION_SNS_TOPIC_ARN env in
  let message :=
    json_dumps env
      (sns_message command interaction_id interaction_token region server_id) in
  call (SnsPublish topic message) (sns_publish env topic message).

(** The part of [handler] that follows a successful [json.loads]. *)
Definition dispatch (interaction : pyval) : run Response :=
  interaction_type <- lift (get interaction "type" PNone) ;;
  emit (Log INFO "Interaction type: %s" [interaction_type]) ;;
  if eq_int interaction_type PING_INTERACTION then
    ret (_json_response 200 (PDict [("type", PInt PING_INTERACTION)]))
  else if negb (eq_int interaction_type APPLICATION_COMMAND_INTERACTION) then
    emit (Log WARNING "Unsupported interaction type: %s" [interaction_type]) ;;
    ret (_json_response 400
           (PDict [("error", PStr "Unsupported interaction type")]))
  else
    server_value <- lift (_find_server_option_value interaction) ;;
    rejected <- lift (if negb (truthy server_value) then Ok true
                      else found <~ contains "|" server_value ;;
                           Ok (negb found)) ;;
    if (rejected : bool) then
      emit (Log WARNING "Missing server selection in interaction %s"
              [interaction]) ;;
      ret (_json_response 400 (PDict [("error", PStr "Missing server option")]))
    else
      data <- lift (get interaction "data" (PDict [])) ;;
      command_name <- lift (get data "name" PNone) ;;
      interaction_id <- lift (get interaction "id" PNone) ;;
      interaction_token <- lift (get interaction "token" PNone) ;;
      if negb (all [command_name; interaction_id; interaction_token]) then
        emit (Log ERROR "Interaction missing required fields: %s"
                [interaction]) ;;
        ret (_json_response 400
               (PDict [("error", PStr "Invalid interaction payload")]))
      else
        parts <- lift (split1 "|" server_value) ;;
        pair <- lift (unpack2 parts) ;;
        _publish_sns_message command_name interaction_id interaction_token
          (fst pair) (snd pair) ;;
        ret (_json_response 200
               (PDict [("type", PInt DEFERRED_CHANNEL_MESSAGE_WITH_SOURCE)])).

(** [json.loads(body_bytes.decode("utf-8"))] under its [try].  [None]
    stands for the [except json.JSONDecodeError] branch having been taken. *)
Definition parse_body (body_bytes : bytes) : run (option pyval) :=
  try_except
    (text <- lift (decode_utf8 body_bytes) ;;
     emit (JsonLoads text) ;;
     interaction <- lift (json_loads env text) ;;
     ret (Some interaction))
    (fun e =>
       match e with
       | JSONDecodeError =>
           Some (emit (Log ERROR "Unable to parse request body" []) ;; ret None)
       | _ => None
       end).

Definition handler (event : Event) : run Response :=
  body_bytes <- lift (_get_body_bytes event) ;;
  verified <- lift (_verify_request event body_bytes) ;;
  if negb verified then
    emit (Log WARNING "Invalid signature on incoming interaction" []) ;;
    ret (_json_response 401 (PDict [("error", PStr "Invalid signature")]))
  else
    parsed <- parse_body body_bytes ;;
    match parsed with
    | None =>
        ret (_json_response 400 (PDict [("error", PStr "Invalid JSON body")]))
    | Some interaction => dispatch interaction
    end.

End Handler.

(** The request carries a valid signature and its body is the JSON text
    [text], which [json.loads] turns into [interaction]. *)
Definition delivers (env : Env) (event : Event) (text : string)
  (interaction : pyval) : Prop :=
  exists body_bytes,
    _get_body_bytes env event = Ok body_bytes /\
    _verify_request env event body_bytes = Ok true /\
    decode_utf8 body_bytes = Ok text /\
    json_loads env text = Ok interaction.

(** The messages handed to the channel during a run. *)
Definition published (t : list action) : list (string * string) :=
  flat_map (fun a => match a with
                     | SnsPublish topic message => [(topic, message)]
                     | _ => []
                     end) t.

(** The texts given to [json.loads] during a run. *)
Definition parsed_texts (t : list action) : list string :=
  flat_map (fun a => match a with
                     | JsonLoads text => [text]
                     | _ => []
                     end) t.

(** The rule on the "server" option with the separator required exactly
    once: a command invocation whose option value is anything but a str
    with one [|] in it is answered 400 and nothing is published. *)
Definition exactly_one_separator_rule : Prop :=
  forall env event text d v,
    delivers env event text (PDict d) ->
    eq_int (dict_get d "type" PNone) APPLICATION_COMMAND_INTERACTION = true ->
    _find_server_option_value (PDict d) = Ok v ->
    (forall s, v = PStr s -> count "|" s <> 1%nat) ->
    exists response,
      outcome (handler env event) = Ok response /\
      statusCode response = 400 /\
      published (trace (handler env event)) = [].

End Dispatcher.

(* ===================================================================== *)
(** ** manage-instance/handler.py: the executor                           *)
(* ===================================================================== *)

Module Executor.
Import Py.
Local Open Scope py_scope.

(** The parts of a [describe_instances] response the module reads.  A
    field is [None] when the key is absent from the dict. *)
Record Tag : Type := {
  Key : option string;
  Value : option string
}.

Record InstanceState : Type := {
  Name : option string
}.

Record Instance : Type := {
  InstanceId : option string;
  PublicDnsName : option string;
  PublicIpAddress : option string;
  Tags : option (list Tag);
  State : option InstanceState
}.

Record Reservation : Type := {
  Instances : option (list Instance)
}.

Record DescribeInstancesResponse : Type := {
  Reservations : option (list Reservation)
}.

(** Process configuration and the library calls of the module:
    [boto3.client("ec2", region_name=...)], the four EC2 operations on the
    client of a region, [json.loads], [json.dumps], the text [str()] gives
    for a list, a dict or a float, and [urllib.request.urlopen] (which
    returns the response status). *)
Record Env : Type := {
  DISCORD_APP_ID : string;
  DISCORD_BOT_TOKEN : string;
  boto3_client : pyval -> option exn;
  describe_instances : pyval -> pyval -> result DescribeInstancesResponse;
  start_instances : pyval -> string -> option exn;
  stop_instances : pyval -> string -> option exn;
  reboot_instances : pyval -> string -> option exn;
  json_loads : string -> result pyval;
  json_dumps : pyval -> string;
  repr : pyval -> string;
  urlopen : string -> bytes -> list (string * string) -> result Z
}.

Definition DISCORD_BASE_URL : string := "https://discord.com/api/v10".

(** How an f-string renders an optional str: [None] prints as its name. *)
Definition fmt (v : option string) : string :=
  match v with
  | Some s => s
  | None => "None"
  end.

Definition str_truthy (v : option string) : bool :=
  match v with
  | Some s => negb (s =? "")%string
  | None => false
  end.

Definition opt_eqb (v : option string) (s : string) : bool :=
  match v with
  | Some t => (t =? s)%string
  | None => false
  end.

Fixpoint _get_tag_loop (tags : list Tag) (tag_key : string) : option string :=
  match tags with
  | [] => None
  | tag :: rest =>
      if opt_eqb (Key tag) tag_key then Value tag
      else _get_tag_loop rest tag_key
  end.

Definition _get_tag (tags : option (list Tag)) (tag_key : string)
  : option string :=
  match tags with
  | None => None
  | Some [] => None
  | Some l => _get_tag_loop l tag_key
  end.

Definition _format_address_message (instance : Instance) : string :=
  let public_dns := PublicDnsName instance in
  let public_ip := PublicIpAddress instance in
  let tags := Tags instance in
  let hostname := _get_tag tags "GameServerEC2Discord:Hostname" in
  let main_port := _get_tag tags "GameServerEC2Discord:MainPort" in
  let lines := ["Addresses:"] in
  let lines :=
    if str_truthy public_ip
    then lines ++ [("- **`" ++ fmt public_ip ++ ":" ++ fmt main_port ++ "`**")%string]
    else lines in
  let lines :=
    if str_truthy public_dns
    then lines ++ [("- `" ++ fmt public_dns ++ ":" ++ fmt main_port ++ "`")%string]
    else lines in
  let lines :=
    if str_truthy hostname
    then lines ++ [("- `" ++ fmt hostname ++ ":" ++ fmt main_port ++ "`")%string]
    else lines in
  join nl lines.

(** The nested loop of [_find_instance]: the first instance of the first
    reservation that has one. *)
Fixpoint first_instance (reservations : list Reservation) : option Instance :=
  match reservations with
  | [] => None
  | reservation :: rest =>
      match Instances reservation with
      | Some (instance :: _) => Some instance
      | _ => first_instance rest
      end
  end.

Definition found_instance (response : DescribeInstancesResponse)
  : option Instance :=
  match Reservations response with
  | Some reservations => first_instance reservations
  | None => None
  end.

Section Handler.

Variable env : Env.

(** [str(v)], as an f-string applies it. *)
Definition str (v : pyval) : string :=
  match v with
  | PStr s => s
  | PNone => "None"
  | PBool true => "True"
  | PBool false => "False"
  | PInt z => str_of_int z
  | _ => repr env v
  end.

(** The client of a region is represented by the region it was made for. *)
Definition _get_ec2_client (region : pyval) : run pyval :=
  call (Ec2Client region) (boto3_client env region) ;;
  ret region.

Definition _find_instance (ec2_client : pyval) (server_id : pyval)
  : run (option Instance) :=
  response <- invoke (Ec2Describe ec2_client server_id)
                     (describe_instances env ec2_client server_id) ;;
  ret (found_instance response).

Definition state_name (instance : Instance) : string :=
  match State instance with
  | Some st => match Name st with
               | Some n => n
               | None => "unknown"
               end
  | None => "unknown"
  end.

(** The body of the [try] statement of [_send_ec2_command]; [None] when
    no branch returns. *)
Definition run_command (ec2_client : pyval) (instance : Instance)
  (instance_id : string) (command : pyval) : run (option string) :=
  if eq_str command "start" then
    call (Ec2Start ec2_client instance_id)
         (start_instances env ec2_client instance_id) ;;
    ret (Some "Starting...")
  else if eq_str command "stop" then
    call (Ec2Stop ec2_client instance_id)
         (stop_instances env ec2_client instance_id) ;;
    ret (Some "Stopping...")
  else if eq_str command "restart" then
    call (Ec2Reboot ec2_client instance_id)
         (reboot_instances env ec2_client instance_id) ;;
    ret (Some "Rebooting...")
  else if eq_str command "status" then
    ret (Some ("State: " ++ state_name instance)%string)
  else if eq_str command "ip" then
    ret (Some (_format_address_message instance))
  else ret None.

Definition not_found_message (server_id region : pyval) : string :=
  ("Instance with server ID " ++ str server_id
   ++ " not found on region " ++ str region)%string.

Definition error_message (detail : string) : string :=
  ("Error executing command:" ++ nl ++ "```" ++ nl ++ detail ++ nl ++ "```")%string.

Definition _send_ec2_command (server_id region command : pyval) : run string :=
  emit (Log INFO "Executing command %s for server %s in region %s"
          [command; server_id; region]) ;;
  ec2_client <- _get_ec2_client region ;;
  instance <- _find_instance ec2_client server_id ;;
  match instance with
  | None => ret (not_found_message server_id region)
  | Some inst =>
      (* an empty dict has no "InstanceId" either *)
      match InstanceId inst with
      | None => ret (not_found_message server_id region)
      | Some instance_id =>
          if negb (str_truthy (InstanceId inst))
          then ret (not_found_message server_id region)
          else
            returned <-
              try_except (run_command ec2_client inst instance_id command)
                (fun e =>
                   match e with
                   | ClientError detail =>
                       Some (emit (Log ERROR "EC2 command failed" []) ;;
                             ret (Some (error_message detail)))
                   | _ => None
                   end) ;;
            match returned with
            | Some text => ret text
            | None => ret "Unknown command"
            end
      end
  end.

Definition _parse_sns_message (event : pyval) : run pyval :=
  records <- lift (get event "Records" PNone) ;;
  record <- lift (index0 (if truthy records then records
                          else PList [PDict []])) ;;
  sns <- lift (get record "Sns" (PDict [])) ;;
  payload <- lift (get sns "Message" (PStr "{}")) ;;
  match payload with
  | PStr text => emit (JsonLoads text) ;; lift (json_loads env text)
  | _ => raise TypeError
  end.

Definition _patch_interaction (interaction_token : pyval) (content : string)
  : run unit :=
  let url := (DISCORD_BASE_URL ++ "/webhooks/" ++ DISCORD_APP_ID env ++ "/"
              ++ str interaction_token ++ "/messages/@original")%string in
  let data :=
    encode_utf8 (json_dumps env (PDict [("content", PStr content)])) in
  let hdrs := [("Authorization", ("Bot " ++ DISCORD_BOT_TOKEN env)%string);
               ("Content-Type", "application/json")] in
  try_except
    (status <- invoke (HttpPatch url data hdrs) (urlopen env url data hdrs) ;;
     emit (Log INFO "Discord response status: %s" [PInt status]))
    (fun e =>
       match e with
       | HTTPError code payload =>
           Some (text <- lift (decode_utf8 payload) ;;
                 emit (Log WARNING "Discord API error (%s): %s"
                         [PInt code; PStr text]))
       | URLError =>
           Some (emit (Log ERROR "Failed to call Discord API" []))
       | _ => None
       end).

Definition handler (event : pyval) : run unit :=
  message <- _parse_sns_message event ;;
  command <- lift (get message "command" PNone) ;;
  interaction_token <- lift (get message "interactionToken" PNone) ;;
  server_id <- lift (get message "serverId" PNone) ;;
  region <- lift (get message "instanceRegion" PNone) ;;
  if negb (all [command; interaction_token; server_id; region]) then
    emit (Log WARNING "Incomplete SNS message payload: %s" [message])
  else
    ec2_message <- _send_ec2_command server_id region command ;;
    emit (Log INFO ("Updating Discord interaction with message:" ++ nl ++ "%s")
            [PStr ec2_message]) ;;
    _patch_interaction interaction_token ec2_message.

End Handler.

Definition is_control_plane (a : action) : bool :=
  match a with
  | Ec2Client _ | Ec2Describe _ _ | Ec2Start _ _ | Ec2Stop _ _
  | Ec2Reboot _ _ => true
  | _ => false
  end.

(** The start/stop/reboot actions issued during a run. *)
Definition is_control_action (a : action) : bool :=
  match a with
  | Ec2Start _ _ | Ec2Stop _ _ | Ec2Reboot _ _ => true
  | _ => false
  end.

Definition is_edit (a : action) : bool :=
  match a with
  | HttpPatch _ _ _ => true
  | _ => false
  end.

(** The field [k] of a channel message is absent, or holds an empty
    (false) value. *)
Definition missing_or_empty (m : list (string * pyval)) (k : string) : Prop :=
  match lookup k m with
  | None => True
  | Some v => truthy v = false
  end.

(** The region a control-plane call was addressed to. *)
Definition region_of (a : action) : option pyval :=
  match a with
  | Ec2Client r | Ec2Describe r _ | Ec2Start r _ | Ec2Stop r _
  | Ec2Reboot r _ => Some r
  | _ => None
  end.

End Executor.

(* ===================================================================== *)
(** ** Concrete environments and inputs                                   *)
(* ===================================================================== *)

Module Fixtures.
Import Py.

Definition dq : string := String (ascii_of_nat 34) EmptyString.

Definition quoted (s : string) : string := (dq ++ s ++ dq)%string.

(** A serialiser for the fragment the examples use: no escapes inside a
    str, floats not rendered. *)
Fixpoint dumps (v : pyval) : string :=
  match v with
  | PNone => "null"
  | PBool true => "true"
  | PBool false => "false"
  | PInt z => str_of_int z
  | PFloat _ => "0.0"
  | PStr s => quoted s
  | PList l => ("[" ++ join ", " (map dumps l) ++ "]")%string
  | PDict d =>
      ("{" ++ join ", " (map (fun '(k, x) => quoted k ++ ": " ++ dumps x) d)
           ++ "}")%string
  end.

(** An interaction of the command-invocation type, as the chat platform
    sends it for [/start server:<value>]. *)
Definition start_data (server : string) : list (string * pyval) :=
  [("name", PStr "start");
   ("options",
    PList [PDict [("name", PStr "server"); ("value", PStr server)]])].

Definition start_items (server : string) : list (string * pyval) :=
  [("type", PInt 2);
   ("id", PStr "1001");
   ("token", PStr "tok-1");
   ("data", PDict (start_data server))].

Definition start_interaction (server : string) : pyval :=
  PDict (start_items server).

Definition ping_items : list (string * pyval) :=
  [("type", PInt 1); ("id", PStr "1000"); ("token", PStr "tok-0")].

Definition ping_interaction : pyval := PDict ping_items.

(** A parser that knows the request bodies of the examples. *)
Definition loads (text : string) : result pyval :=
  if (text =? dumps ping_interaction)%string then Ok ping_interaction
  else if (text =? dumps (start_interaction "us-east-1|i-0123456789abcdef0"))%string
  then Ok (start_interaction "us-east-1|i-0123456789abcdef0")
  else if (text =? dumps (start_interaction "us-east-1|i-0123|spare"))%string
  then Ok (start_interaction "us-east-1|i-0123|spare")
  else if (text =? dumps (start_interaction "us-east-1"))%string
  then Ok (start_interaction "us-east-1")
  else Raise JSONDecodeError.

Definition bytes_eqb (a b : bytes) : bool :=
  if list_eq_dec Byte.byte_eq_dec a b then true else false.

(** The signature the stand-in verifier accepts, whatever the message. *)
Definition good_signature : string := "c0ffee".

Definition dispatcher_env : Dispatcher.Env :=
  {| Dispatcher.DISCORD_APP_PUBLIC_KEY :=
       "3d4017c3e843895a92b70aa74d1b7ebc9c982ccf2ec4968cc0cd55f12af4660c";
     Dispatcher.MANAGER_INSTRUCTION_SNS_TOPIC_ARN :=
       "arn:aws:sns:us-east-1:000000000000:manager-instruction";
     Dispatcher.b64decode := fun _ => Raise BinasciiError;
     Dispatcher.VerifyKey := fun _ => None;
     Dispatcher.verify := fun _ _ sig =>
       if bytes_eqb sig [xc0; xff; xee] then None else Some BadSignatureError;
     Dispatcher.json_loads := loads;
     Dispatcher.json_dumps := dumps;
     Dispatcher.sns_publish := fun _ _ => None |}.

(** A request with the given signature header and body. *)
Definition request (signature : string) (payload : string) : Dispatcher.Event :=
  {| Dispatcher.ev_body := Some (Dispatcher.BodyStr payload);
     Dispatcher.ev_isBase64Encoded := false;
     Dispatcher.ev_headers :=
       Some [("X-Signature-Ed25519", signature);
             ("X-Signature-Timestamp", "1700000000")] |}.

Definition signed (interaction : pyval) : Dispatcher.Event :=
  request good_signature (dumps interaction).

(** The instance behind server id [mc]: it carries the server-id tag and,
    unless [with_port] is off, the tags for host name and port. *)
Definition server_tags (with_port : bool) : list Executor.Tag :=
  {| Executor.Key := Some "GameServerEC2Discord:ServerId";
     Executor.Value := Some "mc" |}
  :: if with_port
     then [ {| Executor.Key := Some "GameServerEC2Discord:Hostname";
               Executor.Value := Some "play.example.com" |};
            {| Executor.Key := Some "GameServerEC2Discord:MainPort";
               Executor.Value := Some "25565" |} ]
     else [].

Definition server_instance (with_port : bool) : Executor.Instance :=
  {| Executor.InstanceId := Some "i-0123456789abcdef0";
     Executor.PublicDnsName := Some "";
     Executor.PublicIpAddress := Some "1.2.3.4";
     Executor.Tags := Some (server_tags with_port);
     Executor.State := Some {| Executor.Name := Some "running" |} |}.

Definition describe (region server_id : pyval)
  : result Executor.DescribeInstancesResponse :=
  if eq_str server_id "mc" then
    Ok {| Executor.Reservations :=
            Some [ {| Executor.Instances := Some [server_instance true] |} ] |}
  else if eq_str server_id "locked" then
    Raise (ClientError "An error occurred (UnauthorizedOperation) when calling the DescribeInstances operation")
  else Ok {| Executor.Reservations := Some [] |}.

Definition channel_message (command server_id region : string) : pyval :=
  PDict [("interactionId", PStr "1001");
         ("interactionToken", PStr "tok-1");
         ("command", PStr command);
         ("serverId", PStr server_id);
         ("region", PStr region);
         ("instanceRegion", PStr region)].

(** A message whose two region fields differ; the dispatcher never
    builds one. *)
Definition skewed_items : list (string * pyval) :=
  [("interactionId", PStr "1001");
   ("interactionToken", PStr "tok-1");
   ("command", PStr "start");
   ("serverId", PStr "mc");
   ("region", PStr "eu-west-1");
   ("instanceRegion", PStr "us-east-1")].

Definition loads_message (text : string) : result pyval :=
  if (text =? dumps (channel_message "start" "mc" "us-east-1"))%string
  then Ok (channel_message "start" "mc" "us-east-1")
  else if (text =? dumps (PDict skewed_items))%string
  then Ok (PDict skewed_items)
  else if (text =? dumps (channel_message "start" "" "us-east-1"))%string
  then Ok (channel_message "start" "" "us-east-1")
  else Raise JSONDecodeError.

Definition executor_env : Executor.Env :=
  {| Executor.DISCORD_APP_ID := "4242";
     Executor.DISCORD_BOT_TOKEN := "bot-token";
     Executor.boto3_client := fun _ => None;
     Executor.describe_instances := describe;
     Executor.start_instances := fun _ _ => None;
     Executor.stop_instances := fun _ _ => None;
     Executor.reboot_instances := fun _ _ => None;
     Executor.json_loads := loads_message;
     Executor.json_dumps := dumps;
     Executor.repr := dumps;
     Executor.urlopen := fun _ _ _ => Ok 204 |}.

(** The Lambda event SNS delivers for one message. *)
Definition delivery (message : pyval) : pyval :=
  PDict [("Records",
          PList [PDict [("Sns", PDict [("Message", PStr (dumps message))])]])].

End Fixtures.

(* ===================================================================== *)
(** ** Observations on executor runs                                      *)
(* ===================================================================== *)

Module Observe.
Import Py.

(** A str made of ASCII characters only: every byte of its UTF-8 form is
    below 128. *)
Definition is_ascii (s : string) : bool :=
  forallb (fun c => (N_of_ascii c <? 128)%N) (list_ascii_of_string s).

(** The instance a start, stop or reboot call names. *)
Definition target_of (a : action) : option string :=
  match a with
  | Ec2Start _ i | Ec2Stop _ i | Ec2Reboot _ i => Some i
  | _ => None
  end.

(** The Lambda event for one SNS record whose message is [text]. *)
Definition sns_event (text : string) : pyval :=
  PDict [("Records", PList [PDict [("Sns", PDict [("Message", PStr text)])]])].

(** The request [_patch_interaction] sends: URL, body and headers. *)
Definition edit_url (env : Executor.Env) (interaction_token : pyval) : string :=
  (Executor.DISCORD_BASE_URL ++ "/webhooks/" ++ Executor.DISCORD_APP_ID env
     ++ "/" ++ Executor.str env interaction_token
     ++ "/messages/@original")%string.

Definition edit_data (env : Executor.Env) (content : string) : bytes :=
  encode_utf8 (Executor.json_dumps env (PDict [("content", PStr content)])).

Definition edit_headers (env : Executor.Env) : list (string * string) :=
  [("Authorization", ("Bot " ++ Executor.DISCORD_BOT_TOKEN env)%string);
   ("Content-Type", "application/json")].

Definition edit_request (env : Executor.Env) (interaction_token : pyval)
  (content : string) : action :=
  HttpPatch (edit_url env interaction_token) (edit_data env content)
    (edit_headers env).

(** A reservation of a [describe_instances] response that holds no
    instance: the key is absent or the list is empty. *)
Definition no_instances (reservation : Executor.Reservation) : Prop :=
  Executor.Instances reservation = None
  \/ Executor.Instances reservation = Some [].

(** What [_send_ec2_command] does before it looks at the command: one log
    line, the client of the region, the lookup. *)
Definition lookup_calls (command server_id region : pyval) : list action :=
  [Log INFO "Executing command %s for server %s in region %s"
     [command; server_id; region];
   Ec2Client region;
   Ec2Describe region server_id].

(** The three commands that act on the instance: name, call made, library
    function behind the call, text returned when the call succeeds. *)
Definition lifecycle (env : Executor.Env)
  : list (string * (pyval -> string -> action)
          * (pyval -> string -> option exn) * string) :=
  [("start", Ec2Start, Executor.start_instances env, "Starting...");
   ("stop", Ec2Stop, Executor.stop_instances env, "Stopping...");
   ("restart", Ec2Reboot, Executor.reboot_instances env, "Rebooting...")].

(** The three kinds of answer the dispatcher builds, written out. *)
Definition pong (env : Dispatcher.Env) : Dispatcher.Response :=
  {| Dispatcher.statusCode := 200;
     Dispatcher.headers := [("content-type", "application/json")];
     Dispatcher.body := Dispatcher.json_dumps env (PDict [("type", PInt 1)]) |}.

Definition deferred (env : Dispatcher.Env) : Dispatcher.Response :=
  {| Dispatcher.statusCode := 200;
     Dispatcher.headers := [("content-type", "application/json")];
     Dispatcher.body := Dispatcher.json_dumps env (PDict [("type", PInt 5)]) |}.

Definition error_response (env : Dispatcher.Env) (status : Z) (text : string)
  : Dispatcher.Response :=
  {| Dispatcher.statusCode := status;
     Dispatcher.headers := [("content-type", "application/json")];
     Dispatcher.body :=
       Dispatcher.json_dumps env (PDict [("error", PStr text)]) |}.

End Observe.

(* ===================================================================== *)
(** ** scripts/add_slash_commands.py: the registered commands             *)
(* ===================================================================== *)

Module Commands.
Import Py.
Local Open Scope py_scope.

(** An entry of [servers.json]: a dict from str to str. *)
Definition server : Type := list (string * string).

Fixpoint find (k : string) (d : server) : option string :=
  match d with
  | [] => None
  | (k', v) :: d' => if (k' =? k)%string then Some v else find k d'
  end.

(** [server[k]]. *)
Definition item (s : server) (k : string) : result string :=
  match find k s with
  | Some v => Ok v
  | None => Raise KeyError
  end.

(** [d[k]] on a value. *)
Definition subscript (v : pyval) (k : string) : result pyval :=
  match v with
  | PDict d =>
      match lookup k d with
      | Some x => Ok x
      | None => Raise KeyError
      end
  | _ => Raise TypeError
  end.

(** [d[k] = x] on a dict: the value of an existing key is replaced in
    place, a new key goes last. *)
Fixpoint dict_set (d : list (string * pyval)) (k : string) (x : pyval)
  : list (string * pyval) :=
  match d with
  | [] => [(k, x)]
  | (k', v) :: d' =>
      if (k' =? k)%string then (k, x) :: d' else (k', v) :: dict_set d' k x
  end.

(** One element of the [server_choices] comprehension. *)
Definition server_choice (s : server) : result pyval :=
  name <~ item s "choiceDisplayName" ;;
  region <~ item s "region" ;;
  game_server_id <~ item s "gameServerId" ;;
  Ok (PDict [("name", PStr name);
             ("value", PStr (region ++ "|" ++ game_server_id)%string)]).

Fixpoint server_choices (servers : list server) : result (list pyval) :=
  match servers with
  | [] => Ok []
  | s :: rest =>
      choice <~ server_choice s ;;
      choices <~ server_choices rest ;;
      Ok (choice :: choices)
  end.

Definition server_option (choices : list pyval) : list (string * pyval) :=
  [("type", PInt 3);
   ("name", PStr "server");
   ("name_localizations", PDict [("pt-BR", PStr "servidor")]);
   ("description", PStr "Which server to run the command for");
   ("description_localizations",
    PDict [("pt-BR", PStr "Para qual servidor executar o comando")]);
   ("required", PBool true);
   ("choices", PList choices)].

Definition commands : list (list (string * pyval)) :=
  [ [("name", PStr "start");
     ("name_localizations", PDict [("pt-BR", PStr "iniciar")]);
     ("description", PStr "Starts a server");
     ("description_localizations",
      PDict [("pt-BR", PStr "Inicia um servidor")]);
     ("include_option", PBool true)];
    [("name", PStr "stop");
     ("name_localizations", PDict [("pt-BR", PStr "parar")]);
     ("description", PStr "Stops a server, if it's online");
     ("description_localizations",
      PDict [("pt-BR", PStr "Desliga um servidor, se estiver online")]);
     ("include_option", PBool true)];
    [("name", PStr "restart");
     ("name_localizations", PDict [("pt-BR", PStr "reiniciar")]);
     ("description", PStr "Restarts a server, if it's online");
     ("description_localizations",
      PDict [("pt-BR", PStr "Reinicia um servidor, se estiver online")]);
     ("include_option", PBool true)];
    [("name", PStr "ip");
     ("description", PStr "Shows the server IP address");
     ("description_localizations",
      PDict [("pt-BR", PStr "Exibe o endereço IP do servidor")]);
     ("include_option", PBool true)];
    [("name", PStr "status");
     ("description", PStr "Shows server host status");
     ("description_localizations",
      PDict [("pt-BR", PStr "Exibe o estado do host do servidor")]);
     ("include_option", PBool true)] ].

(** The body of the loop over [commands]. *)
Definition payload_item (option : list (string * pyval))
  (command : list (string * pyval)) : result pyval :=
  name <~ subscript (PDict command) "name" ;;
  description <~ subscript (PDict command) "description" ;;
  localizations <~ subscript (PDict command) "description_localizations" ;;
  let entry := [("type", PInt 1);
                ("name", name);
                ("description", description);
                ("description_localizations", localizations)] in
  entry <~ (if has_key "name_localizations" command
            then names <~ subscript (PDict command) "name_localizations" ;;
                 Ok (dict_set entry "name_localizations" names)
            else Ok entry) ;;
  entry <~ (if truthy (dict_get command "include_option" PNone)
            then choices <~ subscript (PDict option) "choices" ;;
                 copied <~ iter choices ;;
                 Ok (dict_set entry "options"
                       (PList [PDict (dict_set option "choices"
                                        (PList copied))]))
            else Ok entry) ;;
  Ok (PDict entry).

Fixpoint payload_items (option : list (string * pyval))
  (cmds : list (list (string * pyval))) : result (list pyval) :=
  match cmds with
  | [] => Ok []
  | command :: rest =>
      entry <~ payload_item option command ;;
      entries <~ payload_items option rest ;;
      Ok (entry :: entries)
  end.

Definition _build_command_payload (servers : list server)
  : result (list pyval) :=
  choices <~ server_choices servers ;;
  payload_items (server_option choices) commands.

(** The names under which the commands are registered. *)
Definition command_name (entry : pyval) : pyval :=
  match entry with
  | PDict d => dict_get d "name" PNone
  | _ => PNone
  end.

End Commands.

(* ===================================================================== *)
(** ** scripts/servers_from_tfstate.py: servers found in a state file     *)
(* ===================================================================== *)

Module TfState.
Import Py.
Local Open Scope py_scope.

Definition SERVER_ID_TAG : string := "GameServerEC2Discord:ServerId".
Definition REGION_TAG : string := "GameServerEC2Discord:Region".

Definition RuntimeError : exn := OtherError "RuntimeError".

(** A tags dict with a server id that is not empty. *)
Definition tagged (tags : pyval) : Prop :=
  exists d, tags = PDict d /\ truthy (dict_get d SERVER_ID_TAG PNone) = true.

(** The test [_is_server_module] makes on one resource. *)
Definition is_server_resource (resource : pyval) : result bool :=
  values <~ get resource "values" (PDict []) ;;
  found <~ get values "tags" PNone ;;
  let tags := if truthy found then found else PDict [] in
  kind <~ get resource "type" PNone ;;
  if eq_str kind "aws_spot_instance_request"
  then server_id <~ get tags SERVER_ID_TAG PNone ;; Ok (truthy server_id)
  else Ok false.

Fixpoint any_server_resource (resources : list pyval) : result bool :=
  match resources with
  | [] => Ok false
  | resource :: rest =>
      hit <~ is_server_resource resource ;;
      if (hit : bool) then Ok true else any_server_resource rest
  end.

Fixpoint any_server_child (children : list pyval) : result bool :=
  match children with
  | [] => Ok false
  | child :: rest =>
      found <~ get child "resources" (PList []) ;;
      resources <~ iter found ;;
      hit <~ any_server_resource resources ;;
      if (hit : bool) then Ok true else any_server_child rest
  end.

Definition _is_server_module (module : pyval) : result bool :=
  found <~ get module "child_modules" (PList []) ;;
  children <~ iter found ;;
  any_server_child children.

(** The body of the inner loop of [_extract_tags]: the tags when the
    resource is the one looked for. *)
Definition server_tags (resource : pyval) : result (option pyval) :=
  kind <~ get resource "type" PNone ;;
  if negb (eq_str kind "aws_spot_instance_request") then Ok None
  else
    values <~ get resource "values" (PDict []) ;;
    tags <~ get values "tags" PNone ;;
    if truthy tags
    then server_id <~ get tags SERVER_ID_TAG PNone ;;
         Ok (if truthy server_id then Some tags else None)
    else Ok None.

Fixpoint first_server_tags (resources : list pyval) : result (option pyval) :=
  match resources with
  | [] => Ok None
  | resource :: rest =>
      hit <~ server_tags resource ;;
      match hit with
      | Some tags => Ok (Some tags)
      | None => first_server_tags rest
      end
  end.

Fixpoint first_child_tags (children : list pyval) : result (option pyval) :=
  match children with
  | [] => Ok None
  | child :: rest =>
      found <~ get child "resources" (PList []) ;;
      resources <~ iter found ;;
      hit <~ first_server_tags resources ;;
      match hit with
      | Some tags => Ok (Some tags)
      | None => first_child_tags rest
      end
  end.

Definition _extract_tags (module : pyval) : result pyval :=
  found <~ get module "child_modules" (PList []) ;;
  children <~ iter found ;;
  hit <~ first_child_tags children ;;
  match hit with
  | Some tags => Ok tags
  | None => Raise RuntimeError
  end.

Definition config_entry (tags : pyval) : result pyval :=
  region <~ Commands.subscript tags REGION_TAG ;;
  server_id <~ Commands.subscript tags SERVER_ID_TAG ;;
  display <~ Commands.subscript tags SERVER_ID_TAG ;;
  Ok (PDict [("region", region);
             ("gameServerId", server_id);
             ("discordGuildId", PStr "<Discord Guild ID here>");
             ("choiceDisplayName", display)]).

Fixpoint _build_config (modules : list pyval) : result (list pyval) :=
  match modules with
  | [] => Ok []
  | module :: rest =>
      tags <~ _extract_tags module ;;
      entry <~ config_entry tags ;;
      config <~ _build_config rest ;;
      Ok (entry :: config)
  end.

(** [[module for module in child_modules if _is_server_module(module)]]. *)
Fixpoint server_modules (child_modules : list pyval) : result (list pyval) :=
  match child_modules with
  | [] => Ok []
  | module :: rest =>
      keep <~ _is_server_module module ;;
      kept <~ server_modules rest ;;
      Ok (if (keep : bool) then module :: kept else kept)
  end.

End TfState.

(* ===================================================================== *)
(** ** Further concrete inputs                                            *)
(* ===================================================================== *)

Module Samples.
Import Py.

(** An interaction of a type the dispatcher does not serve. *)
Definition component_items : list (string * pyval) :=
  [("type", PInt 3); ("id", PStr "1002"); ("token", PStr "tok-2")].

(** A command invocation that lacks its [token]. *)
Definition tokenless_items : list (string * pyval) :=
  [("type", PInt 2);
   ("id", PStr "1003");
   ("data", PDict (Fixtures.start_data "us-east-1|mc"))].

(** A command invocation with an option before the "server" option and a
    second "server" option after it. *)
Definition crowded_options : list pyval :=
  [PDict [("name", PStr "verbose"); ("value", PBool true)];
   PDict [("name", PStr "server"); ("value", PStr "us-east-1|mc")];
   PDict [("name", PStr "server"); ("value", PStr "eu-west-1|other")]].

Definition crowded_data : list (string * pyval) :=
  [("name", PStr "status"); ("options", PList crowded_options)].

Definition crowded_items : list (string * pyval) :=
  [("type", PInt 2); ("id", PStr "1004"); ("token", PStr "tok-4");
   ("data", PDict crowded_data)].

(** A command invocation without options. *)
Definition bare_data : list (string * pyval) := [("name", PStr "status")].

Definition bare_items : list (string * pyval) :=
  [("type", PInt 2); ("id", PStr "1005"); ("token", PStr "tok-5");
   ("data", PDict bare_data)].

(** A command invocation whose "server" value ends with the separator. *)
Definition open_ended_items : list (string * pyval) :=
  Fixtures.start_items "us-east-1|".

Definition loads (text : string) : result pyval :=
  if (text =? Fixtures.dumps (PDict component_items))%string
  then Ok (PDict component_items)
  else if (text =? Fixtures.dumps (PDict tokenless_items))%string
  then Ok (PDict tokenless_items)
  else if (text =? Fixtures.dumps (PDict crowded_items))%string
  then Ok (PDict crowded_items)
  else if (text =? Fixtures.dumps (PDict bare_items))%string
  then Ok (PDict bare_items)
  else if (text =? Fixtures.dumps (PDict open_ended_items))%string
  then Ok (PDict open_ended_items)
  else if (text =? Fixtures.dumps (Fixtures.start_interaction "us-east-1|mc"))%string
  then Ok (Fixtures.start_interaction "us-east-1|mc")
  else Fixtures.loads text.

Definition dispatcher_env : Dispatcher.Env :=
  {| Dispatcher.DISCORD_APP_PUBLIC_KEY :=
       Dispatcher.DISCORD_APP_PUBLIC_KEY Fixtures.dispatcher_env;
     Dispatcher.MANAGER_INSTRUCTION_SNS_TOPIC_ARN :=
       Dispatcher.MANAGER_INSTRUCTION_SNS_TOPIC_ARN Fixtures.dispatcher_env;
     Dispatcher.b64decode := Dispatcher.b64decode Fixtures.dispatcher_env;
     Dispatcher.VerifyKey := Dispatcher.VerifyKey Fixtures.dispatcher_env;
     Dispatcher.verify := Dispatcher.verify Fixtures.dispatcher_env;
     Dispatcher.json_loads := loads;
     Dispatcher.json_dumps := Fixtures.dumps;
     Dispatcher.sns_publish := fun _ _ => None |}.

(** The same, with the channel out of reach. *)
Definition offline_env : Dispatcher.Env :=
  {| Dispatcher.DISCORD_APP_PUBLIC_KEY :=
       Dispatcher.DISCORD_APP_PUBLIC_KEY Fixtures.dispatcher_env;
     Dispatcher.MANAGER_INSTRUCTION_SNS_TOPIC_ARN :=
       Dispatcher.MANAGER_INSTRUCTION_SNS_TOPIC_ARN Fixtures.dispatcher_env;
     Dispatcher.b64decode := Dispatcher.b64decode Fixtures.dispatcher_env;
     Dispatcher.VerifyKey := Dispatcher.VerifyKey Fixtures.dispatcher_env;
     Dispatcher.verify := Dispatcher.verify Fixtures.dispatcher_env;
     Dispatcher.json_loads := loads;
     Dispatcher.json_dumps := Fixtures.dumps;
     Dispatcher.sns_publish :=
       fun _ _ => Some (OtherError "EndpointConnectionError") |}.

(** Executors whose start, stop and reboot calls fail: refused by the
    control plane, respectively never reaching it. *)
Definition refusing_env : Executor.Env :=
  {| Executor.DISCORD_APP_ID := "4242";
     Executor.DISCORD_BOT_TOKEN := "bot-token";
     Executor.boto3_client := fun _ => None;
     Executor.describe_instances := Fixtures.describe;
     Executor.start_instances :=
       fun _ _ => Some (ClientError "IncorrectSpotRequestState");
     Executor.stop_instances :=
       fun _ _ => Some (ClientError "IncorrectSpotRequestState");
     Executor.reboot_instances :=
       fun _ _ => Some (ClientError "IncorrectSpotRequestState");
     Executor.json_loads := Fixtures.loads_message;
     Executor.json_dumps := Fixtures.dumps;
     Executor.repr := Fixtures.dumps;
     Executor.urlopen := fun _ _ _ => Raise URLError |}.

Definition unreachable_env : Executor.Env :=
  {| Executor.DISCORD_APP_ID := "4242";
     Executor.DISCORD_BOT_TOKEN := "bot-token";
     Executor.boto3_client := fun _ => None;
     Executor.describe_instances := Fixtures.describe;
     Executor.start_instances :=
       fun _ _ => Some (OtherError "EndpointConnectionError");
     Executor.stop_instances :=
       fun _ _ => Some (OtherError "EndpointConnectionError");
     Executor.reboot_instances :=
       fun _ _ => Some (OtherError "EndpointConnectionError");
     Executor.json_loads := Fixtures.loads_message;
     Executor.json_dumps := Fixtures.dumps;
     Executor.repr := Fixtures.dumps;
     Executor.urlopen :=
       fun _ _ _ => Raise (HTTPError 404 [x6e; x6f]) |}.

(** An executor whose parser also knows the empty object and a message
    for the server id [locked], whose lookup is refused. *)
Definition loads_message (text : string) : result pyval :=
  if (text =? "{}")%string then Ok (PDict [])
  else if (text =? Fixtures.dumps
                     (Fixtures.channel_message "start" "locked" "us-east-1"))%string
  then Ok (Fixtures.channel_message "start" "locked" "us-east-1")
  else Fixtures.loads_message text.

Definition executor_env : Executor.Env :=
  {| Executor.DISCORD_APP_ID := "4242";
     Executor.DISCORD_BOT_TOKEN := "bot-token";
     Executor.boto3_client := fun _ => None;
     Executor.describe_instances := Fixtures.describe;
     Executor.start_instances := fun _ _ => None;
     Executor.stop_instances := fun _ _ => None;
     Executor.reboot_instances := fun _ _ => None;
     Executor.json_loads := loads_message;
     Executor.json_dumps := Fixtures.dumps;
     Executor.repr := Fixtures.dumps;
     Executor.urlopen := fun _ _ _ => Ok 204 |}.

(** Two entries of [servers.json]; the id of the second holds a [|]. *)
Definition servers : list Commands.server :=
  [ [("region", "us-east-1"); ("gameServerId", "mc");
     ("discordGuildId", "7001"); ("choiceDisplayName", "Minecraft")];
    [("region", "eu-west-1"); ("gameServerId", "fac|torio");
     ("discordGuildId", "7001"); ("choiceDisplayName", "Factorio")] ].

(** A module of a Terraform state with a server in it: a resource of
    another type first, then the spot request with its tags. *)
Definition server_tags : list (string * pyval) :=
  [("GameServerEC2Discord:ServerId", PStr "mc");
   ("GameServerEC2Discord:Region", PStr "us-east-1")].

Definition server_module : pyval :=
  PDict [("address", PStr "module.mc");
         ("child_modules",
          PList [PDict [("resources",
                         PList [PDict [("type", PStr "aws_security_group");
                                       ("values", PDict [])];
                                PDict [("type", PStr "aws_spot_instance_request");
                                       ("values",
                                        PDict [("tags", PDict server_tags)])]])]])].

(** The response of the lookup for server id [mc]. *)
Definition mc_response : Executor.DescribeInstancesResponse :=
  {| Executor.Reservations :=
       Some [ {| Executor.Instances :=
                   Some [Fixtures.server_instance true] |} ] |}.

(** A signed request whose body is a bytes object that is not UTF-8. *)
Definition raw_request : Dispatcher.Event :=
  {| Dispatcher.ev_body := Some (Dispatcher.BodyBytes [xff; xfe]);
     Dispatcher.ev_isBase64Encoded := false;
     Dispatcher.ev_headers :=
       Some [("x-signature-ed25519", Fixtures.good_signature);
             ("x-signature-timestamp", "1700000000")] |}.

End Samples.

(* ===================================================================== *)
(** ** Facts about the Python fragment                                    *)
(* ===================================================================== *)

Module PyFacts.
Import Py.
Local Open Scope py_scope.

Lemma bind_ok {A B} (t : list action) (a : A) (k : A -> run B) :
  bind (t, Ok a) k = (t ++ trace (k a), outcome (k a)).
Proof. unfold bind, trace, outcome. destruct (k a); reflexivity. Qed.

Lemma bind_lift_ok {A B} (a : A) (k : A -> run B) :
  bind (lift (Ok a)) k = k a.
Proof. unfold bind, lift. destruct (k a); reflexivity. Qed.

Lemma bind_lift_raise {A B} (e : exn) (k : A -> run B) :
  bind (lift (Raise e)) k = ([], Raise e).
Proof. reflexivity. Qed.

Lemma bind_emit {B} (a : action) (k : unit -> run B) :
  bind (emit a) k = (a :: trace (k tt), outcome (k tt)).
Proof. unfold bind, emit, trace, outcome. destruct (k tt); reflexivity. Qed.

(** An int-like value cannot equal both interaction types. *)
Lemma eq_int_command_not_ping (v : pyval) :
  eq_int v 2 = true -> eq_int v 1 = false.
Proof.
  destruct v as [ | b | z | f | s | l | d ]; simpl; try discriminate.
  - destruct b; discriminate.
  - intros H. apply Z.eqb_eq in H. subst z. reflexivity.
  - destruct f as [ s | s | | s m e ]; cbn [float_eq_int]; try discriminate.
    generalize (if s then Z.neg m else Z.pos m); intros mz.
    destruct (0 <=? e) eqn:He; intros H; apply Z.eqb_eq in H;
      apply Z.eqb_neq; intros H1.
    + lia.
    + apply Z.leb_gt in He.
      assert (0 < 2 ^ (- e)) by (apply Z.pow_pos_nonneg; lia).
      rewrite H1 in H. lia.
Qed.

Lemma substring_all (s : string) : substring 0 (String.length s) s = s.
Proof. induction s as [ | c s IH ]; simpl; [ reflexivity | now rewrite IH ]. Qed.

Lemma prefix_empty (s : string) : prefix "" s = true.
Proof. destruct s; reflexivity. Qed.

(** [partition] on the separator [|]: the value is cut at an occurrence of
    the separator, and the part before the cut has none. *)
Lemma partition_first (s a b : string) :
  partition "|" s = Some (a, b) ->
  s = (a ++ "|" ++ b)%string /\ str_contains "|" a = false.
Proof.
  revert a b. induction s as [ | c s IH ]; intros a b.
  - discriminate.
  - unfold str_contains. cbn [partition prefix].
    destruct (ascii_dec "|" c) as [ Heq | Hc ].
    + subst c. rewrite prefix_empty. cbn [String.length Nat.sub].
      rewrite Nat.sub_0_r. cbn [substring]. rewrite substring_all.
      intros [= <- <-]. split; reflexivity.
    + destruct (partition "|" s) as [ [a0 b0] | ] eqn:Hp; [ | discriminate ].
      intros [= <- <-]. destruct (IH a0 b0 eq_refl) as [-> Ha].
      split; [ reflexivity | ].
      cbn [partition prefix]. destruct (ascii_dec "|" c); [ contradiction | ].
      unfold str_contains in Ha.
      destruct (partition "|" a0) as [ [? ?] | ]; [ discriminate | reflexivity ].
Qed.

Lemma str_contains_partition (s : string) :
  str_contains "|" s = true -> exists a b, partition "|" s = Some (a, b).
Proof.
  unfold str_contains.
  destruct (partition "|" s) as [ [a b] | ]; [ eauto | discriminate ].
Qed.

Lemma str_contains_cons (c : ascii) (s : string) :
  str_contains "|" (String c s) = false ->
  c <> "|"%char /\ str_contains "|" s = false.
Proof.
  unfold str_contains. cbn [partition prefix].
  destruct (ascii_dec "|" c) as [ Heq | Hc ].
  - rewrite prefix_empty. discriminate.
  - destruct (partition "|" s) as [ [? ?] | ]; [ discriminate | ].
    intros _. split; [ congruence | reflexivity ].
Qed.

(** A str in which [|] is not found cannot be cut at a [|]. *)
Lemma no_separator_inside (s : string) :
  str_contains "|" s = false ->
  forall a b, s <> (a ++ "|" ++ b)%string.
Proof.
  intros Hs a b ->. revert Hs. induction a as [ | c a IH ].
  - unfold str_contains. cbn [append partition prefix].
    destruct (ascii_dec "|" "|") as [ _ | Hc ]; [ | now contradiction Hc ].
    rewrite prefix_empty. discriminate.
  - intros Hs. apply str_contains_cons in Hs as [_ Hs]. exact (IH Hs).
Qed.

(** The cut at the first separator is unique. *)
Lemma first_separator_unique (a a' b b' : string) :
  (a ++ "|" ++ b)%string = (a' ++ "|" ++ b')%string ->
  str_contains "|" a = false -> str_contains "|" a' = false ->
  a = a' /\ b = b'.
Proof.
  revert a'. induction a as [ | c a IH ]; intros [ | c' a' ]; cbn [append].
  - intros [= ->]; auto.
  - intros [= <- _] _ H. apply str_contains_cons in H. now destruct H.
  - intros [= -> _] H _. apply str_contains_cons in H. now destruct H.
  - intros [= <- H] Ha Ha'.
    apply str_contains_cons in Ha, Ha'.
    destruct (IH a' H) as [-> ->]; [ tauto | tauto | auto ].
Qed.

End PyFacts.

(* ===================================================================== *)
(** ** The dispatcher                                                     *)
(* ===================================================================== *)

Module DispatcherSpec.
Import Py PyFacts Dispatcher.
Local Open Scope py_scope.

(** One step of symbolic execution of a run. *)
Ltac step :=
  match goal with
  | |- context [bind (lift ?r) _] =>
      destruct r eqn:?; [ rewrite bind_lift_ok | rewrite bind_lift_raise ]
  | |- context [bind (emit _) _] => rewrite bind_emit
  | |- context [bind (ret _) _] => unfold ret at 1; rewrite bind_ok
  | |- context [if ?b then _ else _] => destruct b eqn:?
  end; cbv beta.

Ltac observe :=
  cbn [trace outcome fst snd published parsed_texts flat_map app ret raise
       call invoke emit].

(** A request that is verified and parsed behaves as [dispatch] on the
    parsed interaction, after the one call to the parser. *)
Lemma handler_dispatch env event text interaction :
  delivers env event text interaction ->
  handler env event =
    (JsonLoads text :: trace (dispatch env interaction),
     outcome (dispatch env interaction)).
Proof.
  intros (body_bytes & Hbody & Hverify & Hdecode & Hloads).
  unfold handler, parse_body.
  rewrite Hbody, bind_lift_ok, Hverify, bind_lift_ok. cbn [negb].
  rewrite Hdecode, bind_lift_ok, bind_emit, Hloads, bind_lift_ok.
  cbn [ret trace outcome fst snd try_except]. rewrite bind_ok. reflexivity.
Qed.

(** A request the verifier turns down is answered 401; the body is not
    parsed and nothing is published. *)
Lemma handler_unverified env event body_bytes :
  _get_body_bytes env event = Ok body_bytes ->
  _verify_request env event body_bytes = Ok false ->
  handler env event =
    ([Log WARNING "Invalid signature on incoming interaction" []],
     Ok (_json_response env 401 (PDict [("error", PStr "Invalid signature")]))).
Proof.
  intros Hbody Hverify. unfold handler.
  rewrite Hbody, bind_lift_ok, Hverify, bind_lift_ok. reflexivity.
Qed.

Lemma unverified_request_untouched env event body_bytes :
  _get_body_bytes env event = Ok body_bytes ->
  _verify_request env event body_bytes = Ok false ->
  parsed_texts (trace (handler env event)) = []
  /\ published (trace (handler env event)) = [].
Proof.
  intros Hbody Hverify. rewrite (handler_unverified _ _ _ Hbody Hverify).
  split; reflexivity.
Qed.

(** The verifier turns a request down when a signature header is absent
    or empty. *)
Lemma verify_request_missing_header env event body_bytes :
  header_truthy (_get_header (ev_headers event) "x-signature-ed25519") = false
  \/ header_truthy (_get_header (ev_headers event) "x-signature-timestamp")
     = false ->
  _verify_request env event body_bytes = Ok false.
Proof.
  unfold _verify_request.
  destruct (_get_header (ev_headers event) "x-signature-ed25519") as [sig | ];
    destruct (_get_header (ev_headers event) "x-signature-timestamp")
      as [ts | ]; try reflexivity.
  intros [-> | ->]; cbn [negb orb]; [ reflexivity | ].
  now rewrite orb_true_r.
Qed.

(** The verifier turns a request down when PyNaCl reports a bad signature. *)
Lemma verify_request_bad_signature env event body_bytes sig ts key sig_bytes :
  _get_header (ev_headers event) "x-signature-ed25519" = Some sig ->
  _get_header (ev_headers event) "x-signature-timestamp" = Some ts ->
  fromhex (DISCORD_APP_PUBLIC_KEY env) = Ok key ->
  VerifyKey env key = None ->
  fromhex sig = Ok sig_bytes ->
  verify env key (encode_utf8 ts ++ body_bytes) sig_bytes
    = Some BadSignatureError ->
  _verify_request env event body_bytes = Ok false.
Proof.
  intros Hsig Hts Hkey Hinit Hhex Hverify. unfold _verify_request.
  rewrite Hsig, Hts.
  destruct (negb (header_truthy (Some sig)) || negb (header_truthy (Some ts)));
    [ reflexivity | ].
  rewrite Hkey. cbn [rbind]. rewrite Hinit, Hhex. cbn [rbind].
  rewrite Hverify. reflexivity.
Qed.

(** What [dispatch] publishes: nothing, or the one message built by
    [sns_message]. *)
Lemma dispatch_published env interaction :
  published (trace (dispatch env interaction)) = []
  \/ exists command interaction_id interaction_token region server_id,
       published (trace (dispatch env interaction)) =
         [(MANAGER_INSTRUCTION_SNS_TOPIC_ARN env,
           json_dumps env (sns_message command interaction_id
                             interaction_token region server_id))].
Proof.
  unfold dispatch, _publish_sns_message.
  repeat step; observe; auto.
  right. do 5 eexists.
  destruct (sns_publish env _ _); observe; reflexivity.
Qed.

(** Whatever the request, [handler] publishes nothing or the one message
    built by [sns_message]. *)
Lemma handler_published env event :
  published (trace (handler env event)) = []
  \/ exists command interaction_id interaction_token region server_id,
       published (trace (handler env event)) =
         [(MANAGER_INSTRUCTION_SNS_TOPIC_ARN env,
           json_dumps env (sns_message command interaction_id
                             interaction_token region server_id))].
Proof.
  destruct (_get_body_bytes env event) as [body_bytes | e] eqn:Hbody;
    [ | left; unfold handler; rewrite Hbody; reflexivity ].
  destruct (_verify_request env event body_bytes) as [ [ | ] | e ] eqn:Hverify;
    [ | left; rewrite (handler_unverified _ _ _ Hbody Hverify); reflexivity
      | left; unfold handler;
        rewrite Hbody, bind_lift_ok, Hverify; reflexivity ].
  destruct (decode_utf8 body_bytes) as [text | e] eqn:Hdecode;
    [ | left; unfold handler, parse_body;
        rewrite Hbody, bind_lift_ok, Hverify, bind_lift_ok, Hdecode;
        cbn [negb]; rewrite bind_lift_raise;
        destruct e; reflexivity ].
  destruct (json_loads env text) as [interaction | e] eqn:Hloads.
  - assert (Hd : delivers env event text interaction)
      by (exists body_bytes; auto).
    rewrite (handler_dispatch _ _ _ _ Hd). observe.
    apply dispatch_published.
  - left. unfold handler, parse_body.
    rewrite Hbody, bind_lift_ok, Hverify, bind_lift_ok, Hdecode, bind_lift_ok,
      bind_emit, Hloads.
    cbn [negb]. rewrite bind_lift_raise. destruct e; reflexivity.
Qed.

(** With the header [X-Signature-Ed25519: zz] the verifier raises, whatever
    the key and the body. *)
Lemma verify_request_zz env payload body_bytes :
  exists e,
    _verify_request env (Fixtures.request "zz" payload) body_bytes = Raise e.
Proof.
  unfold _verify_request. cbn [Fixtures.request ev_headers].
  change (_get_header _ "x-signature-ed25519") with (Some "zz").
  change (_get_header _ "x-signature-timestamp") with (Some "1700000000").
  cbn [header_truthy negb orb String.eqb Ascii.eqb Bool.eqb].
  destruct (fromhex (DISCORD_APP_PUBLIC_KEY env)) as [key | e];
    cbn [rbind]; [ | eauto ].
  destruct (VerifyKey env key) as [e | ]; [ eauto | ].
  exists ValueError. reflexivity.
Qed.

(** C1 (evaluated at the failing input).  A request whose signature header
    is the malformed hex text [zz] is not answered 401: for every
    environment and every body the handler ends with an exception, having
    parsed and published nothing. *)
Theorem handler_malformed_signature_raises env payload :
  exists e, handler env (Fixtures.request "zz" payload) = ([], Raise e).
Proof.
  assert (Hbody : exists body_bytes,
             _get_body_bytes env (Fixtures.request "zz" payload)
             = Ok body_bytes).
  { unfold _get_body_bytes. cbn [Fixtures.request ev_body ev_isBase64Encoded].
    destruct (body_truthy (BodyStr payload)); eauto. }
  destruct Hbody as [body_bytes Hbody].
  destruct (verify_request_zz env payload body_bytes) as [e He].
  exists e. unfold handler. rewrite Hbody, bind_lift_ok, He. reflexivity.
Qed.

(** C2 (evaluated at the failing inputs).  When both signature headers are
    present and the signature is not well-formed hex, the verifier does
    not return [false]: it ends with an exception. *)
Theorem verify_request_malformed_hex_raises env event body_bytes sig ts :
  _get_header (ev_headers event) "x-signature-ed25519" = Some sig ->
  _get_header (ev_headers event) "x-signature-timestamp" = Some ts ->
  sig <> "" -> ts <> "" ->
  fromhex sig = Raise ValueError ->
  exists e, _verify_request env event body_bytes = Raise e.
Proof.
  intros Hsig Hts Hs Ht Hhex. unfold _verify_request. rewrite Hsig, Hts.
  cbn [header_truthy].
  apply String.eqb_neq in Hs, Ht. rewrite Hs, Ht. cbn [negb orb].
  destruct (fromhex (DISCORD_APP_PUBLIC_KEY env)) as [key | e];
    cbn [rbind]; [ | eauto ].
  destruct (VerifyKey env key) as [e | ]; [ eauto | ].
  rewrite Hhex. exists ValueError. reflexivity.
Qed.

Lemma verify_request_malformed_hex_raises_witness :
  exists e,
    _verify_request Fixtures.dispatcher_env (Fixtures.request "zz" "{}") []
    = Raise e.
Proof.
  apply (verify_request_malformed_hex_raises Fixtures.dispatcher_env
           (Fixtures.request "zz" "{}") [] "zz" "1700000000").
  - reflexivity.
  - reflexivity.
  - discriminate.
  - discriminate.
  - reflexivity.
Defined.

(** C7.  A verified request whose JSON body is an object with [type] equal
    to 1 is answered 200 with the body [{type: 1}], whatever else the
    object holds; nothing is published. *)
Theorem ping_acknowledged env event text d :
  delivers env event text (PDict d) ->
  eq_int (dict_get d "type" PNone) 1 = true ->
  handler env event =
    ([JsonLoads text; Log INFO "Interaction type: %s" [dict_get d "type" PNone]],
     Ok {| statusCode := 200;
           headers := [("content-type", "application/json")];
           body := json_dumps env (PDict [("type", PInt 1)]) |})
  /\ published (trace (handler env event)) = [].
Proof.
  intros Hd Hping. rewrite (handler_dispatch _ _ _ _ Hd).
  unfold dispatch. cbn [get]. rewrite bind_lift_ok, bind_emit.
  change PING_INTERACTION with 1. rewrite Hping.
  split; reflexivity.
Qed.

(** The signed requests of the examples reach the parser. *)
Ltac delivered :=
  match goal with
  | |- delivers _ (Fixtures.signed ?i) _ _ =>
      exists (encode_utf8 (Fixtures.dumps i));
      repeat split; vm_compute; reflexivity
  end.

Lemma ping_acknowledged_witness :
  handler Fixtures.dispatcher_env (Fixtures.signed Fixtures.ping_interaction) =
    ([JsonLoads (Fixtures.dumps Fixtures.ping_interaction);
      Log INFO "Interaction type: %s" [PInt 1]],
     Ok {| statusCode := 200;
           headers := [("content-type", "application/json")];
           body := ("{" ++ Fixtures.quoted "type" ++ ": 1}")%string |})
  /\ published
       (trace (handler Fixtures.dispatcher_env
                 (Fixtures.signed Fixtures.ping_interaction))) = [].
Proof.
  apply (ping_acknowledged Fixtures.dispatcher_env
           (Fixtures.signed Fixtures.ping_interaction)
           (Fixtures.dumps Fixtures.ping_interaction)
           Fixtures.ping_items).
  - delivered.
  - reflexivity.
Defined.

(** C5, as amended.  A command invocation whose "server" option value is
    missing or empty, or is a str without any [|], is answered 400 and
    nothing is published. *)
Theorem missing_server_option_rejected env event text d v :
  delivers env event text (PDict d) ->
  eq_int (dict_get d "type" PNone) 2 = true ->
  _find_server_option_value (PDict d) = Ok v ->
  truthy v = false \/ (exists s, v = PStr s /\ str_contains "|" s = false) ->
  outcome (handler env event) =
    Ok {| statusCode := 400;
          headers := [("content-type", "application/json")];
          body := json_dumps env
                    (PDict [("error", PStr "Missing server option")]) |}
  /\ published (trace (handler env event)) = [].
Proof.
  intros Hd Htype Hfind Hbad. rewrite (handler_dispatch _ _ _ _ Hd). observe.
  unfold dispatch. cbn [get]. rewrite bind_lift_ok, bind_emit.
  unfold PING_INTERACTION, APPLICATION_COMMAND_INTERACTION in *.
  rewrite (eq_int_command_not_ping _ Htype), Htype, Hfind, bind_lift_ok.
  cbn [negb].
  assert (Hrej : (if negb (truthy v) then Ok true
                  else found <~ contains "|" v ;; Ok (negb found)) = Ok true).
  { destruct Hbad as [-> | (s & -> & Hs)]; [ reflexivity | ].
    cbn [contains rbind]. rewrite Hs. destruct (negb (truthy (PStr s))); reflexivity. }
  rewrite Hrej, bind_lift_ok, bind_emit. split; reflexivity.
Qed.

Lemma missing_server_option_rejected_witness :
  outcome (handler Fixtures.dispatcher_env
             (Fixtures.signed (Fixtures.start_interaction "us-east-1"))) =
    Ok {| statusCode := 400;
          headers := [("content-type", "application/json")];
          body := ("{" ++ Fixtures.quoted "error" ++ ": "
                       ++ Fixtures.quoted "Missing server option" ++ "}")%string |}
  /\ published
       (trace (handler Fixtures.dispatcher_env
                 (Fixtures.signed (Fixtures.start_interaction "us-east-1"))))
     = [].
Proof.
  eapply (missing_server_option_rejected Fixtures.dispatcher_env
            (Fixtures.signed (Fixtures.start_interaction "us-east-1"))
            (Fixtures.dumps (Fixtures.start_interaction "us-east-1"))
            (Fixtures.start_items "us-east-1") (PStr "us-east-1")).
  - delivered.
  - reflexivity.
  - reflexivity.
  - right. exists "us-east-1". split; reflexivity.
Defined.

(** C5, as stated, fails: the value [us-east-1|i-0123|spare] has two
    separators, and the command is accepted and published. *)
Lemma exactly_one_separator_rule_fails : ~ exactly_one_separator_rule.
Proof.
  intros Hrule.
  destruct (Hrule Fixtures.dispatcher_env
              (Fixtures.signed (Fixtures.start_interaction "us-east-1|i-0123|spare"))
              (Fixtures.dumps (Fixtures.start_interaction "us-east-1|i-0123|spare"))
              (Fixtures.start_items "us-east-1|i-0123|spare")
              (PStr "us-east-1|i-0123|spare"))
    as (response & Hout & Hstatus & Hpub).
  - delivered.
  - reflexivity.
  - reflexivity.
  - intros s [= <-]. vm_compute. discriminate.
  - vm_compute in Hpub. discriminate Hpub.
Qed.

Lemma str_contains_nonempty (s : string) :
  str_contains "|" s = true -> truthy (PStr s) = true.
Proof. destruct s; [ discriminate | reflexivity ]. Qed.

(** C6.  An accepted command invocation whose "server" option value
    contains [|] publishes one message: the serialised dict whose [region]
    (and [instanceRegion]) is the text before the first [|] of the value
    and whose [serverId] is the text after it, beside the interaction id,
    the token and the command name.  The answer is 200 with the deferred
    type 5 when the publish call returns. *)
Theorem command_split_at_first_separator env event text d data sv :
  delivers env event text (PDict d) ->
  eq_int (dict_get d "type" PNone) 2 = true ->
  _find_server_option_value (PDict d) = Ok (PStr sv) ->
  str_contains "|" sv = true ->
  dict_get d "data" (PDict []) = PDict data ->
  all [dict_get data "name" PNone; dict_get d "id" PNone;
       dict_get d "token" PNone] = true ->
  exists region server_id,
    sv = (region ++ "|" ++ server_id)%string /\
    str_contains "|" region = false /\
    (forall a b, region <> (a ++ "|" ++ b)%string) /\
    let topic := MANAGER_INSTRUCTION_SNS_TOPIC_ARN env in
    let message :=
      json_dumps env
        (PDict [("interactionId", dict_get d "id" PNone);
                ("interactionToken", dict_get d "token" PNone);
                ("command", dict_get data "name" PNone);
                ("serverId", PStr server_id);
                ("region", PStr region);
                ("instanceRegion", PStr region)]) in
    handler env event =
      ([JsonLoads text;
        Log INFO "Interaction type: %s" [dict_get d "type" PNone];
        Log INFO
          "Publishing %s command for server %s in region %s (interaction %s)"
          [dict_get data "name" PNone; PStr server_id; PStr region;
           dict_get d "id" PNone];
        SnsPublish topic message],
       match sns_publish env topic message with
       | None =>
           Ok {| statusCode := 200;
                 headers := [("content-type", "application/json")];
                 body := json_dumps env (PDict [("type", PInt 5)]) |}
       | Some e => Raise e
       end)
    /\ published (trace (handler env event)) = [(topic, message)].
Proof.
  intros Hd Htype Hfind Hsep Hdata Hall.
  destruct (str_contains_partition _ Hsep) as (region & server_id & Hpart).
  destruct (partition_first _ _ _ Hpart) as [Hsv Hregion].
  exists region, server_id. split; [ exact Hsv | ]. split; [ exact Hregion | ].
  split; [ exact (no_separator_inside _ Hregion) | ].
  cbv zeta.
  match goal with
  | |- ?run = ?expected /\ _ =>
      assert (Hrun : run = expected); [ | rewrite Hrun; split; reflexivity ]
  end.
  rewrite (handler_dispatch _ _ _ _ Hd).
  unfold dispatch. cbn [get]. rewrite bind_lift_ok, bind_emit.
  change PING_INTERACTION with 1.
  change APPLICATION_COMMAND_INTERACTION with 2.
  rewrite (eq_int_command_not_ping _ Htype), Htype, Hfind, bind_lift_ok.
  cbn [negb]. rewrite (str_contains_nonempty _ Hsep).
  cbn [negb contains rbind]. rewrite Hsep. cbn [negb].
  rewrite bind_lift_ok, bind_lift_ok, Hdata. cbn [get].
  rewrite !bind_lift_ok, Hall. cbn [negb split1].
  unfold str_split1. rewrite Hpart, bind_lift_ok.
  change (unpack2 [region; server_id]) with (Ok (region, server_id)).
  rewrite bind_lift_ok. cbn [fst snd].
  unfold _publish_sns_message. rewrite bind_emit.
  destruct (sns_publish env _ _); reflexivity.
Qed.

Lemma command_split_at_first_separator_witness :
  handler Fixtures.dispatcher_env
    (Fixtures.signed
       (Fixtures.start_interaction "us-east-1|i-0123456789abcdef0"))
  = ([JsonLoads
        (Fixtures.dumps
           (Fixtures.start_interaction "us-east-1|i-0123456789abcdef0"));
      Log INFO "Interaction type: %s" [PInt 2];
      Log INFO
        "Publishing %s command for server %s in region %s (interaction %s)"
        [PStr "start"; PStr "i-0123456789abcdef0"; PStr "us-east-1";
         PStr "1001"];
      SnsPublish "arn:aws:sns:us-east-1:000000000000:manager-instruction"
        (Fixtures.dumps
           (PDict [("interactionId", PStr "1001");
                   ("interactionToken", PStr "tok-1");
                   ("command", PStr "start");
                   ("serverId", PStr "i-0123456789abcdef0");
                   ("region", PStr "us-east-1");
                   ("instanceRegion", PStr "us-east-1")]))],
     Ok {| statusCode := 200;
           headers := [("content-type", "application/json")];
           body := ("{" ++ Fixtures.quoted "type" ++ ": 5}")%string |}).
Proof.
  destruct (command_split_at_first_separator Fixtures.dispatcher_env
              (Fixtures.signed
                 (Fixtures.start_interaction "us-east-1|i-0123456789abcdef0"))
              (Fixtures.dumps
                 (Fixtures.start_interaction "us-east-1|i-0123456789abcdef0"))
              (Fixtures.start_items "us-east-1|i-0123456789abcdef0")
              (Fixtures.start_data "us-east-1|i-0123456789abcdef0")
              "us-east-1|i-0123456789abcdef0")
    as (region & server_id & Hsv & Hregion & _ & Hrun & _).
  - delivered.
  - reflexivity.
  - reflexivity.
  - reflexivity.
  - reflexivity.
  - reflexivity.
  - destruct (first_separator_unique "us-east-1" region
                "i-0123456789abcdef0" server_id Hsv eq_refl Hregion)
      as [<- <-].
    exact Hrun.
Defined.

End DispatcherSpec.

(* ===================================================================== *)
(** ** The executor                                                       *)
(* ===================================================================== *)

Module ExecutorSpec.
Import Py PyFacts Executor.
Local Open Scope py_scope.

(** Case analysis on every scrutinee of the goal, innermost first. *)
Ltac cases :=
  repeat match goal with
    | |- context [match ?x with _ => _ end] =>
        lazymatch x with
        | context [match _ with _ => _ end] => fail
        | _ => destruct x eqn:?
        end; cbn
    end.

Lemma forall_trace_bind {A B} (P : action -> Prop) (m : run A)
  (k : A -> run B) :
  Forall P (trace m) ->
  (forall a, outcome m = Ok a -> Forall P (trace (k a))) ->
  Forall P (trace (bind m k)).
Proof.
  destruct m as [t [a | e]]; cbn [trace outcome fst snd]; intros Ht Hk.
  - rewrite bind_ok. cbn [trace fst]. apply Forall_app. auto.
  - exact Ht.
Qed.

(** Every control-plane call of [_send_ec2_command] goes to the region it
    was given. *)
Lemma send_ec2_command_region env server_id region command :
  Forall (fun a => forall r, region_of a = Some r -> r = region)
    (trace (_send_ec2_command env server_id region command)).
Proof.
  unfold _send_ec2_command, _get_ec2_client, _find_instance, run_command.
  cbn. cases.
  all: repeat constructor; cbn; intros; congruence.
Qed.

Lemma patch_interaction_region env interaction_token content :
  Forall (fun a => region_of a = None)
    (trace (_patch_interaction env interaction_token content)).
Proof.
  unfold _patch_interaction. cbn. cases.
  all: repeat constructor.
Qed.

(** [_parse_sns_message] does nothing but call the parser. *)
Lemma parse_sns_message_trace env event :
  trace (_parse_sns_message env event) = []
  \/ exists text, trace (_parse_sns_message env event) = [JsonLoads text].
Proof.
  unfold _parse_sns_message.
  destruct (get event "Records" PNone) as [records | e];
    [ rewrite bind_lift_ok | auto ].
  destruct (index0 _) as [record | e]; [ rewrite bind_lift_ok | auto ].
  destruct (get record "Sns" (PDict [])) as [sns | e];
    [ rewrite bind_lift_ok | auto ].
  destruct (get sns "Message" (PStr "{}")) as [payload | e];
    [ rewrite bind_lift_ok | auto ].
  destruct payload; auto.
  right. exists s. rewrite bind_emit. destruct (json_loads env s); reflexivity.
Qed.

(** A failure of start, stop or reboot that botocore reports as a
    [ClientError] becomes the text of the outcome. *)
Lemma action_failure_reported env server_id region response instance
  instance_id detail :
  boto3_client env region = None ->
  describe_instances env region server_id = Ok response ->
  found_instance response = Some instance ->
  InstanceId instance = Some instance_id -> instance_id <> "" ->
  start_instances env region instance_id = Some (ClientError detail) ->
  outcome (_send_ec2_command env server_id region (PStr "start"))
  = Ok (error_message detail).
Proof.
  intros Hclient Hdescribe Hfound Hid Hne Hstart.
  apply String.eqb_neq in Hne.
  unfold _send_ec2_command, _get_ec2_client, _find_instance, run_command.
  cbn. rewrite Hclient. cbn. rewrite Hdescribe. cbn. rewrite Hfound, Hid.
  cbn. rewrite Hne. cbn. rewrite Hstart. reflexivity.
Qed.

(** C3 (evaluated at the failing inputs).  When the tag lookup fails with
    a [ClientError], [_send_ec2_command] produces no outcome text: the
    exception leaves the function, for every command. *)
Theorem lookup_failure_escapes env server_id region command detail :
  boto3_client env region = None ->
  describe_instances env region server_id = Raise (ClientError detail) ->
  _send_ec2_command env server_id region command =
    ([Log INFO "Executing command %s for server %s in region %s"
        [command; server_id; region];
      Ec2Client region; Ec2Describe region server_id],
     Raise (ClientError detail)).
Proof.
  intros Hclient Hdescribe.
  unfold _send_ec2_command, _get_ec2_client, _find_instance.
  cbn. rewrite Hclient. cbn. rewrite Hdescribe. reflexivity.
Qed.

Lemma lookup_failure_escapes_witness :
  exists detail,
    _send_ec2_command Fixtures.executor_env (PStr "locked") (PStr "us-east-1")
      (PStr "start") =
    ([Log INFO "Executing command %s for server %s in region %s"
        [PStr "start"; PStr "locked"; PStr "us-east-1"];
      Ec2Client (PStr "us-east-1");
      Ec2Describe (PStr "us-east-1") (PStr "locked")],
     Raise (ClientError detail)).
Proof.
  eexists.
  apply (lookup_failure_escapes Fixtures.executor_env (PStr "locked")
           (PStr "us-east-1") (PStr "start")).
  - reflexivity.
  - reflexivity.
Defined.

(** The example of the specification: public IP, host-name and port tags,
    no public DNS name. *)
Lemma format_address_example :
  _format_address_message (Fixtures.server_instance true) =
    ("Addresses:" ++ nl ++ "- **`1.2.3.4:25565`**"
                  ++ nl ++ "- `play.example.com:25565`")%string.
Proof. reflexivity. Qed.

(** Without any address the message is the header line. *)
Lemma format_address_header_only instance :
  str_truthy (PublicIpAddress instance) = false ->
  str_truthy (PublicDnsName instance) = false ->
  str_truthy (_get_tag (Tags instance) "GameServerEC2Discord:Hostname") = false ->
  _format_address_message instance = "Addresses:".
Proof.
  intros Hip Hdns Hhost. unfold _format_address_message.
  rewrite Hip, Hdns, Hhost. reflexivity.
Qed.

(** C4 (evaluated at the failing inputs).  For an instance that has a
    public IP and no port tag, the address line is not the bare address:
    it ends with [:None]. *)
Theorem address_without_port_tag instance ip :
  PublicIpAddress instance = Some ip -> ip <> "" ->
  str_truthy (PublicDnsName instance) = false ->
  str_truthy (_get_tag (Tags instance) "GameServerEC2Discord:Hostname") = false ->
  _get_tag (Tags instance) "GameServerEC2Discord:MainPort" = None ->
  _format_address_message instance =
    ("Addresses:" ++ nl ++ "- **`" ++ ip ++ ":None`**")%string.
Proof.
  intros Hip Hne Hdns Hhost Hport. apply String.eqb_neq in Hne.
  unfold _format_address_message. rewrite Hip, Hdns, Hhost, Hport.
  cbn [str_truthy fmt]. rewrite Hne. reflexivity.
Qed.

Lemma address_without_port_tag_witness :
  _format_address_message (Fixtures.server_instance false) =
    ("Addresses:" ++ nl ++ "- **`" ++ "1.2.3.4" ++ ":None`**")%string.
Proof.
  apply (address_without_port_tag (Fixtures.server_instance false) "1.2.3.4").
  - reflexivity.
  - discriminate.
  - reflexivity.
  - reflexivity.
  - reflexivity.
Defined.

(** C8.  When the tag lookup returns no instance, [_send_ec2_command]
    returns the not-found text, whatever the command, and the only calls
    made are the creation of the client and the lookup itself. *)
Theorem unresolved_server_not_found env server_id region command response :
  boto3_client env region = None ->
  describe_instances env region server_id = Ok response ->
  found_instance response = None ->
  _send_ec2_command env server_id region command =
    ([Log INFO "Executing command %s for server %s in region %s"
        [command; server_id; region];
      Ec2Client region; Ec2Describe region server_id],
     Ok (not_found_message env server_id region))
  /\ filter is_control_action
       (trace (_send_ec2_command env server_id region command)) = [].
Proof.
  intros Hclient Hdescribe Hfound.
  assert (H : _send_ec2_command env server_id region command =
              ([Log INFO "Executing command %s for server %s in region %s"
                  [command; server_id; region];
                Ec2Client region; Ec2Describe region server_id],
               Ok (not_found_message env server_id region))).
  { unfold _send_ec2_command, _get_ec2_client, _find_instance.
    cbn. rewrite Hclient. cbn. rewrite Hdescribe. cbn. rewrite Hfound.
    reflexivity. }
  rewrite H. split; reflexivity.
Qed.

Lemma unresolved_server_not_found_witness :
  _send_ec2_command Fixtures.executor_env (PStr "nope") (PStr "us-east-1")
    (PStr "start") =
    ([Log INFO "Executing command %s for server %s in region %s"
        [PStr "start"; PStr "nope"; PStr "us-east-1"];
      Ec2Client (PStr "us-east-1");
      Ec2Describe (PStr "us-east-1") (PStr "nope")],
     Ok "Instance with server ID nope not found on region us-east-1")
  /\ filter is_control_action
       (trace (_send_ec2_command Fixtures.executor_env (PStr "nope")
                 (PStr "us-east-1") (PStr "start"))) = [].
Proof.
  apply (unresolved_server_not_found Fixtures.executor_env (PStr "nope")
           (PStr "us-east-1") (PStr "start")
           {| Reservations := Some [] |}).
  - reflexivity.
  - reflexivity.
  - reflexivity.
Defined.

Lemma missing_or_empty_falsy m k :
  missing_or_empty m k -> truthy (dict_get m k PNone) = false.
Proof.
  unfold missing_or_empty, dict_get.
  destruct (lookup k m); [ auto | reflexivity ].
Qed.

(** C10.  A channel message that lacks one of [command],
    [interactionToken], [serverId], [instanceRegion], or holds an empty
    value there, is dropped: the handler logs one warning and returns,
    without a control-plane call and without an edit. *)
Theorem incomplete_message_dropped env event t m k :
  _parse_sns_message env event = (t, Ok (PDict m)) ->
  In k ["command"; "interactionToken"; "serverId"; "instanceRegion"] ->
  missing_or_empty m k ->
  handler env event =
    (t ++ [Log WARNING "Incomplete SNS message payload: %s" [PDict m]], Ok tt)
  /\ filter is_control_plane (trace (handler env event)) = []
  /\ filter is_edit (trace (handler env event)) = [].
Proof.
  intros Hparse Hk Hempty. apply missing_or_empty_falsy in Hempty.
  assert (Hall : all [dict_get m "command" PNone;
                      dict_get m "interactionToken" PNone;
                      dict_get m "serverId" PNone;
                      dict_get m "instanceRegion" PNone] = false).
  { cbn [all forallb].
    destruct Hk as [<- | [<- | [<- | [<- | []]]]]; rewrite Hempty;
      rewrite ?andb_false_r; reflexivity. }
  assert (H : handler env event =
              (t ++ [Log WARNING "Incomplete SNS message payload: %s" [PDict m]],
               Ok tt)).
  { unfold handler. rewrite Hparse, bind_ok. cbn [get].
    rewrite !bind_lift_ok, Hall. reflexivity. }
  rewrite H. cbn [trace fst]. split; [ reflexivity | ].
  rewrite !filter_app. cbn [filter is_control_plane is_edit].
  rewrite !app_nil_r.
  destruct (parse_sns_message_trace env event) as [Ht | [text Ht]];
    rewrite Hparse in Ht; cbn [trace fst] in Ht; subst t; split; reflexivity.
Qed.

Lemma incomplete_message_dropped_witness :
  handler Fixtures.executor_env
    (Fixtures.delivery (Fixtures.channel_message "start" "" "us-east-1")) =
    ([JsonLoads (Fixtures.dumps (Fixtures.channel_message "start" "" "us-east-1"))]
     ++ [Log WARNING "Incomplete SNS message payload: %s"
           [Fixtures.channel_message "start" "" "us-east-1"]],
     Ok tt)
  /\ filter is_control_plane
       (trace (handler Fixtures.executor_env
                 (Fixtures.delivery
                    (Fixtures.channel_message "start" "" "us-east-1")))) = []
  /\ filter is_edit
       (trace (handler Fixtures.executor_env
                 (Fixtures.delivery
                    (Fixtures.channel_message "start" "" "us-east-1")))) = [].
Proof.
  apply (incomplete_message_dropped Fixtures.executor_env
           (Fixtures.delivery (Fixtures.channel_message "start" "" "us-east-1"))
           [JsonLoads
              (Fixtures.dumps (Fixtures.channel_message "start" "" "us-east-1"))]
           _ "serverId").
  - reflexivity.
  - simpl. tauto.
  - reflexivity.
Defined.

(** Every control-plane call of the handler goes to the region named by
    the [instanceRegion] field of the message. *)
Lemma handler_region env event t m :
  _parse_sns_message env event = (t, Ok (PDict m)) ->
  Forall (fun a => forall r, region_of a = Some r ->
                             r = dict_get m "instanceRegion" PNone)
    (trace (handler env event)).
Proof.
  intros Hparse. unfold handler. apply forall_trace_bind.
  - destruct (parse_sns_message_trace env event) as [-> | [text ->]];
      repeat constructor; discriminate.
  - rewrite Hparse. cbn [outcome snd]. intros ? [= <-]. cbn [get].
    rewrite !bind_lift_ok.
    destruct (negb (all _)).
    + repeat constructor; discriminate.
    + apply forall_trace_bind; [ apply send_ec2_command_region | ].
      intros text _. rewrite bind_emit. cbn [trace fst].
      constructor; [ discriminate | ].
      eapply Forall_impl; [ | apply patch_interaction_region ].
      cbn beta. intros a -> r. discriminate.
Qed.

End ExecutorSpec.

(* ===================================================================== *)
(** ** The channel message                                                *)
(* ===================================================================== *)

Module ChannelSpec.
Import Py PyFacts.

(** C9.  Every message the dispatcher publishes is the serialisation of a
    dict that holds the same value under [region] and [instanceRegion];
    and every control-plane call of the executor is addressed to the
    region found under [instanceRegion] in the message it received. *)
Theorem region_fields_agree :
  (forall env event topic message,
      In (topic, message)
         (Dispatcher.published (trace (Dispatcher.handler env event))) ->
      exists payload r,
        message = Dispatcher.json_dumps env (PDict payload) /\
        lookup "region" payload = Some r /\
        lookup "instanceRegion" payload = Some r)
  /\
  (forall env event t m a r,
      Executor._parse_sns_message env event = (t, Ok (PDict m)) ->
      In a (trace (Executor.handler env event)) ->
      Executor.region_of a = Some r ->
      r = dict_get m "instanceRegion" PNone).
Proof.
  split.
  - intros env event topic message Hin.
    destruct (DispatcherSpec.handler_published env event)
      as [Hnone | (command & id & token & region & server_id & Hone)].
    + rewrite Hnone in Hin. destruct Hin.
    + rewrite Hone in Hin. destruct Hin as [[= <- <-] | []].
      eexists. exists (PStr region). split; [ reflexivity | ].
      split; reflexivity.
  - intros env event t m a r Hparse Hin Hregion.
    pose proof (ExecutorSpec.handler_region env event t m Hparse) as Hall.
    rewrite Forall_forall in Hall. exact (Hall a Hin r Hregion).
Qed.

Lemma region_fields_agree_witness :
  (exists payload r,
      Fixtures.dumps
        (Dispatcher.sns_message (PStr "start") (PStr "1001") (PStr "tok-1")
           "us-east-1" "i-0123456789abcdef0")
      = Fixtures.dumps (PDict payload) /\
      lookup "region" payload = Some r /\
      lookup "instanceRegion" payload = Some r)
  /\ PStr "us-east-1" = dict_get Fixtures.skewed_items "instanceRegion" PNone.
Proof.
  split.
  - apply (proj1 region_fields_agree Fixtures.dispatcher_env
             (Fixtures.signed
                (Fixtures.start_interaction "us-east-1|i-0123456789abcdef0"))
             (Dispatcher.MANAGER_INSTRUCTION_SNS_TOPIC_ARN
                Fixtures.dispatcher_env)).
    vm_compute. left. reflexivity.
  - apply (proj2 region_fields_agree Fixtures.executor_env
             (Fixtures.delivery (PDict Fixtures.skewed_items))
             [JsonLoads (Fixtures.dumps (PDict Fixtures.skewed_items))]
             Fixtures.skewed_items
             (Ec2Start (PStr "us-east-1") "i-0123456789abcdef0")).
    + reflexivity.
    + vm_compute. tauto.
    + reflexivity.
Defined.

End ChannelSpec.

(* ===================================================================== *)
(** ** More on the dispatcher                                             *)
(* ===================================================================== *)

Module DispatcherMore.
Import Py PyFacts Dispatcher Observe.
Local Open Scope py_scope.

Ltac step := DispatcherSpec.step.
Ltac observe := DispatcherSpec.observe.

(** *** Header lookup *)

(** X1.  For a requested name and header keys made of ASCII characters,
    [_get_header] returns the value of the first item whose key is the
    requested name in any mix of upper and lower case; items with an
    empty key are passed over. *)
Theorem get_header_first_match pre key v post name :
  is_ascii name = true -> is_ascii key = true ->
  (forall k x, In (k, x) pre -> is_ascii k = true) ->
  key <> "" -> lower key = lower name ->
  (forall k x, In (k, x) pre -> k = "" \/ lower k <> lower name) ->
  _get_header (Some (pre ++ (key, v) :: post)) name = Some v.
Proof.
  intros _ _ _ Hkey Hlow Hpre.
  assert (Hitems : _get_header_items (pre ++ (key, v) :: post) (lower name)
                   = Some v).
  { induction pre as [ | [k x] pre IH ]; cbn [app _get_header_items].
    - apply String.eqb_neq in Hkey. rewrite Hkey, Hlow, String.eqb_refl.
      reflexivity.
    - destruct (Hpre k x (or_introl eq_refl)) as [-> | Hk].
      + cbn [String.eqb negb andb]. apply IH.
        intros k' x' Hin. apply (Hpre k' x'). now right.
      + apply String.eqb_neq in Hk. rewrite Hk, andb_false_r. apply IH.
        intros k' x' Hin. apply (Hpre k' x'). now right. }
  destruct pre; exact Hitems.
Qed.

Lemma get_header_first_match_witness :
  _get_header
    (Some ([("Host", "example.org"); ("", "ignored")]
           ++ ("X-SIGNATURE-Timestamp", "17") :: [("x-signature-timestamp", "18")]))
    "x-signature-timestamp" = Some "17".
Proof.
  apply (get_header_first_match
           [("Host", "example.org"); ("", "ignored")]
           "X-SIGNATURE-Timestamp" "17" [("x-signature-timestamp", "18")]
           "x-signature-timestamp").
  - reflexivity.
  - reflexivity.
  - intros k x [[= <- <-] | [[= <- <-] | []]]; reflexivity.
  - discriminate.
  - reflexivity.
  - intros k x [[= <- <-] | [[= <- <-] | []]].
    + right. vm_compute. discriminate.
    + left. reflexivity.
Defined.

(** *** Verification comes first *)

(** X2.  [_verify_request] returns [True] only when both signature
    headers are present and not empty, the configured key and the
    signature are well-formed hex, and PyNaCl accepted the signature over
    the timestamp bytes followed by the body bytes. *)
Theorem verified_means_signature_checked env event body_bytes :
  _verify_request env event body_bytes = Ok true ->
  exists sig ts key sig_bytes,
    _get_header (ev_headers event) "x-signature-ed25519" = Some sig /\
    _get_header (ev_headers event) "x-signature-timestamp" = Some ts /\
    sig <> "" /\ ts <> "" /\
    fromhex (DISCORD_APP_PUBLIC_KEY env) = Ok key /\
    VerifyKey env key = None /\
    fromhex sig = Ok sig_bytes /\
    verify env key (encode_utf8 ts ++ body_bytes) sig_bytes = None.
Proof.
  unfold _verify_request.
  destruct (_get_header (ev_headers event) "x-signature-ed25519") as [sig | ];
    [ | discriminate ].
  destruct (_get_header (ev_headers event) "x-signature-timestamp")
    as [ts | ]; [ | discriminate ].
  cbn [header_truthy].
  destruct (sig =? "")%string eqn:Hsig; [ discriminate | ].
  destruct (ts =? "")%string eqn:Hts; [ discriminate | ].
  cbn [negb orb].
  destruct (fromhex (DISCORD_APP_PUBLIC_KEY env)) as [key | e] eqn:Hkey;
    cbn [rbind]; [ | discriminate ].
  destruct (VerifyKey env key) as [e | ] eqn:Hinit; [ discriminate | ].
  destruct (fromhex sig) as [sig_bytes | e] eqn:Hhex; cbn [rbind];
    [ | destruct e; discriminate ].
  destruct (verify env key (encode_utf8 ts ++ body_bytes) sig_bytes)
    as [e | ] eqn:Hverify; [ destruct e; discriminate | ].
  intros _. exists sig, ts, key, sig_bytes.
  apply String.eqb_neq in Hsig, Hts. repeat split; auto.
Qed.

Lemma verified_means_signature_checked_witness :
  exists sig ts key sig_bytes,
    _get_header (ev_headers (Fixtures.signed Fixtures.ping_interaction))
      "x-signature-ed25519" = Some sig /\
    _get_header (ev_headers (Fixtures.signed Fixtures.ping_interaction))
      "x-signature-timestamp" = Some ts /\
    sig <> "" /\ ts <> "" /\
    fromhex (DISCORD_APP_PUBLIC_KEY Fixtures.dispatcher_env) = Ok key /\
    VerifyKey Fixtures.dispatcher_env key = None /\
    fromhex sig = Ok sig_bytes /\
    verify Fixtures.dispatcher_env key
      (encode_utf8 ts
       ++ encode_utf8 (Fixtures.dumps Fixtures.ping_interaction)) sig_bytes
    = None.
Proof.
  apply (verified_means_signature_checked Fixtures.dispatcher_env
           (Fixtures.signed Fixtures.ping_interaction)
           (encode_utf8 (Fixtures.dumps Fixtures.ping_interaction))).
  vm_compute. reflexivity.
Defined.

(** The runs of [handler] on a request that is not verified. *)
Lemma handler_not_verified env event :
  (forall body_bytes,
      _get_body_bytes env event = Ok body_bytes ->
      _verify_request env event body_bytes <> Ok true) ->
  parsed_texts (trace (handler env event)) = []
  /\ published (trace (handler env event)) = [].
Proof.
  intros Hnot. unfold handler.
  destruct (_get_body_bytes env event) as [body_bytes | e] eqn:Hbody;
    [ rewrite bind_lift_ok | split; reflexivity ].
  specialize (Hnot body_bytes eq_refl).
  destruct (_verify_request env event body_bytes) as [ [ | ] | e ];
    [ congruence | | split; reflexivity ].
  rewrite bind_lift_ok. split; reflexivity.
Qed.

(** X3.  The handler calls [json.loads] or publishes to the channel only
    for a request whose body was obtained and whose signature was
    verified. *)
Theorem nothing_before_verification env event :
  parsed_texts (trace (handler env event)) <> []
  \/ published (trace (handler env event)) <> [] ->
  exists body_bytes,
    _get_body_bytes env event = Ok body_bytes /\
    _verify_request env event body_bytes = Ok true.
Proof.
  intros Hsome.
  destruct (_get_body_bytes env event) as [body_bytes | e] eqn:Hbody.
  - destruct (_verify_request env event body_bytes) as [ [ | ] | e ] eqn:Hv;
      [ eauto | | ];
      (destruct (handler_not_verified env event) as [Hp Hq];
       [ intros bb Hbb; rewrite Hbody in Hbb; injection Hbb as <-;
         rewrite Hv; discriminate
       | rewrite Hp, Hq in Hsome; destruct Hsome as [[] | []]; reflexivity ]).
  - destruct (handler_not_verified env event) as [Hp Hq];
      [ intros bb Hbb; rewrite Hbody in Hbb; discriminate | ].
    rewrite Hp, Hq in Hsome. destruct Hsome as [[] | []]; reflexivity.
Qed.

Lemma nothing_before_verification_witness :
  exists body_bytes,
    _get_body_bytes Fixtures.dispatcher_env
      (Fixtures.signed Fixtures.ping_interaction) = Ok body_bytes /\
    _verify_request Fixtures.dispatcher_env
      (Fixtures.signed Fixtures.ping_interaction) body_bytes = Ok true.
Proof.
  apply (nothing_before_verification Fixtures.dispatcher_env
           (Fixtures.signed Fixtures.ping_interaction)).
  left. vm_compute. discriminate.
Defined.

(** *** The answers of the handler *)

(** What [dispatch] does: either it publishes nothing and answers pong or
    an error 400, or it publishes one message and the publish call decides
    between the deferred answer and an exception. *)
Lemma dispatch_shape env interaction :
  (published (trace (dispatch env interaction)) = [] /\
   forall r, outcome (dispatch env interaction) = Ok r ->
             r = pong env \/ exists text, r = error_response env 400 text)
  \/ exists command interaction_id interaction_token region server_id,
       let topic := MANAGER_INSTRUCTION_SNS_TOPIC_ARN env in
       let message :=
         json_dumps env (sns_message command interaction_id
                           interaction_token region server_id) in
       published (trace (dispatch env interaction)) = [(topic, message)] /\
       outcome (dispatch env interaction) =
         match sns_publish env topic message with
         | None => Ok (deferred env)
         | Some e => Raise e
         end.
Proof.
  unfold dispatch, _publish_sns_message.
  repeat step; observe;
    try (left; split;
         [ reflexivity
         | intros r Hr;
           first [ discriminate Hr
                 | injection Hr as <-;
                   first [ left; reflexivity
                         | right; eexists; reflexivity ] ] ]).
  right. do 5 eexists. cbv zeta. split.
  - destruct (sns_publish env _ _); observe; reflexivity.
  - destruct (sns_publish env _ _); observe; reflexivity.
Qed.

Ltac raised :=
  split; [ reflexivity | intros r Hr; cbn in Hr; discriminate Hr ].

Lemma handler_shape env event :
  (published (trace (handler env event)) = [] /\
   forall r, outcome (handler env event) = Ok r ->
             r = pong env
             \/ exists status text,
                  r = error_response env status text /\
                  (status = 400 \/ status = 401))
  \/ exists command interaction_id interaction_token region server_id,
       let topic := MANAGER_INSTRUCTION_SNS_TOPIC_ARN env in
       let message :=
         json_dumps env (sns_message command interaction_id
                           interaction_token region server_id) in
       published (trace (handler env event)) = [(topic, message)] /\
       outcome (handler env event) =
         match sns_publish env topic message with
         | None => Ok (deferred env)
         | Some e => Raise e
         end.
Proof.
  destruct (_get_body_bytes env event) as [body_bytes | e] eqn:Hbody;
    [ | left; unfold handler; rewrite Hbody;
        raised ].
  destruct (_verify_request env event body_bytes) as [ [ | ] | e ] eqn:Hverify;
    [ | left; rewrite (DispatcherSpec.handler_unverified _ _ _ Hbody Hverify);
        split; [ reflexivity
               | intros r [= <-]; right;
                 exists 401, "Invalid signature"; auto ]
      | left; unfold handler; rewrite Hbody, bind_lift_ok, Hverify;
        raised ].
  destruct (decode_utf8 body_bytes) as [text | e] eqn:Hdecode;
    [ | left; unfold handler, parse_body;
        rewrite Hbody, bind_lift_ok, Hverify, bind_lift_ok, Hdecode;
        cbn [negb]; rewrite bind_lift_raise;
        destruct e;
        first [ raised
              | split; [ reflexivity
                       | intros r [= <-]; right;
                         exists 400, "Invalid JSON body"; auto ] ] ].
  destruct (json_loads env text) as [interaction | e] eqn:Hloads.
  - assert (Hd : delivers env event text interaction)
      by (exists body_bytes; auto).
    rewrite (DispatcherSpec.handler_dispatch _ _ _ _ Hd). observe.
    destruct (dispatch_shape env interaction)
      as [[Hpub Hout] | (c & i & t & rg & sid & Hpub & Hout)].
    + left. split; [ exact Hpub | ].
      intros r Hr. destruct (Hout r Hr) as [-> | [text' ->]];
        [ now left | right; exists 400, text'; auto ].
    + right. exists c, i, t, rg, sid. split; assumption.
  - left. unfold handler, parse_body.
    rewrite Hbody, bind_lift_ok, Hverify, bind_lift_ok, Hdecode, bind_lift_ok,
      bind_emit, Hloads.
    cbn [negb]. rewrite bind_lift_raise.
    destruct e; try raised.
    split; [ reflexivity | ]. intros r [= <-]. right.
    exists 400, "Invalid JSON body". auto.
Qed.

(** X4.  Every answer the handler returns has status 200, 400 or 401 and
    carries the JSON content type. *)
Theorem response_status_codes env event r :
  outcome (handler env event) = Ok r ->
  (statusCode r = 200 \/ statusCode r = 400 \/ statusCode r = 401)
  /\ headers r = [("content-type", "application/json")].
Proof.
  intros Hr.
  destruct (handler_shape env event)
    as [[_ Hout] | (c & i & t & rg & sid & _ & Hout)].
  - destruct (Hout r Hr) as [-> | (status & text & -> & [-> | ->])];
      cbn; auto.
  - cbv zeta in Hout. rewrite Hout in Hr.
    destruct (sns_publish env _ _); [ discriminate | ].
    injection Hr as <-. cbn. auto.
Qed.

Lemma response_status_codes_witness :
  (statusCode (error_response Fixtures.dispatcher_env 401 "Invalid signature")
   = 200
   \/ statusCode (error_response Fixtures.dispatcher_env 401 "Invalid signature")
      = 400
   \/ statusCode (error_response Fixtures.dispatcher_env 401 "Invalid signature")
      = 401)
  /\ headers (error_response Fixtures.dispatcher_env 401 "Invalid signature")
     = [("content-type", "application/json")].
Proof.
  apply (response_status_codes Fixtures.dispatcher_env
           (Fixtures.request "00" "{}")).
  reflexivity.
Defined.

(** X5.  An answer with a status other than 200 means that nothing was
    published to the channel. *)
Theorem error_answer_publishes_nothing env event r :
  outcome (handler env event) = Ok r ->
  statusCode r <> 200 ->
  published (trace (handler env event)) = [].
Proof.
  intros Hr Hstatus.
  destruct (handler_shape env event)
    as [[Hpub _] | (c & i & t & rg & sid & _ & Hout)]; [ exact Hpub | ].
  cbv zeta in Hout. rewrite Hout in Hr.
  destruct (sns_publish env _ _); [ discriminate | ].
  injection Hr as <-. now contradiction Hstatus.
Qed.

Lemma error_answer_publishes_nothing_witness :
  published
    (trace (handler Fixtures.dispatcher_env
              (Fixtures.signed (Fixtures.start_interaction "us-east-1")))) = [].
Proof.
  apply (error_answer_publishes_nothing Fixtures.dispatcher_env
           (Fixtures.signed (Fixtures.start_interaction "us-east-1"))
           (error_response Fixtures.dispatcher_env 400 "Missing server option")).
  - reflexivity.
  - discriminate.
Defined.

(** X6.  One request leads to at most one message on the channel. *)
Theorem at_most_one_message env event :
  (List.length (published (trace (handler env event))) <= 1)%nat.
Proof.
  destruct (handler_shape env event)
    as [[-> _] | (c & i & t & rg & sid & Hpub & _)].
  - cbn. lia.
  - cbv zeta in Hpub. rewrite Hpub. cbn. lia.
Qed.

(** X7.  Once a message was handed to the channel, the publish call alone
    decides the end of the request: the deferred answer (200, type 5)
    when it returns, its exception when it raises. *)
Theorem publish_decides_outcome env event topic message :
  In (topic, message) (published (trace (handler env event))) ->
  outcome (handler env event) =
    match sns_publish env topic message with
    | None => Ok (deferred env)
    | Some e => Raise e
    end.
Proof.
  intros Hin.
  destruct (handler_shape env event)
    as [[Hpub _] | (c & i & t & rg & sid & Hpub & Hout)].
  - rewrite Hpub in Hin. destruct Hin.
  - cbv zeta in Hpub, Hout. rewrite Hpub in Hin.
    destruct Hin as [[= <- <-] | []]. exact Hout.
Qed.

Lemma publish_decides_outcome_witness :
  outcome (handler Samples.offline_env
             (Fixtures.signed
                (Fixtures.start_interaction "us-east-1|i-0123456789abcdef0")))
  = Raise (OtherError "EndpointConnectionError").
Proof.
  apply (publish_decides_outcome Samples.offline_env
           (Fixtures.signed
              (Fixtures.start_interaction "us-east-1|i-0123456789abcdef0"))
           (MANAGER_INSTRUCTION_SNS_TOPIC_ARN Samples.offline_env)
           (Fixtures.dumps
              (sns_message (PStr "start") (PStr "1001") (PStr "tok-1")
                 "us-east-1" "i-0123456789abcdef0"))).
  vm_compute. left. reflexivity.
Defined.

(** *** Refusals *)

(** X8.  A verified body that [json.loads] refuses with a
    [JSONDecodeError] is answered 400 "Invalid JSON body"; nothing else
    happens. *)
Theorem invalid_json_rejected env event body_bytes text :
  _get_body_bytes env event = Ok body_bytes ->
  _verify_request env event body_bytes = Ok true ->
  decode_utf8 body_bytes = Ok text ->
  json_loads env text = Raise JSONDecodeError ->
  handler env event =
    ([JsonLoads text; Log ERROR "Unable to parse request body" []],
     Ok (error_response env 400 "Invalid JSON body")).
Proof.
  intros Hbody Hverify Hdecode Hloads. unfold handler, parse_body.
  rewrite Hbody, bind_lift_ok, Hverify, bind_lift_ok, Hdecode, bind_lift_ok,
    bind_emit, Hloads.
  reflexivity.
Qed.

Lemma invalid_json_rejected_witness :
  handler Fixtures.dispatcher_env (Fixtures.request "c0ffee" "{type: 1") =
    ([JsonLoads "{type: 1"; Log ERROR "Unable to parse request body" []],
     Ok (error_response Fixtures.dispatcher_env 400 "Invalid JSON body")).
Proof.
  apply (invalid_json_rejected Fixtures.dispatcher_env
           (Fixtures.request "c0ffee" "{type: 1")
           (encode_utf8 "{type: 1")).
  - reflexivity.
  - reflexivity.
  - reflexivity.
  - reflexivity.
Defined.

(** X9.  A verified body that is not valid UTF-8 is not answered at all:
    the [UnicodeDecodeError] of [decode] is not a [JSONDecodeError] and
    leaves the handler, before the parser is called. *)
Theorem undecodable_body_escapes env event body_bytes :
  _get_body_bytes env event = Ok body_bytes ->
  _verify_request env event body_bytes = Ok true ->
  utf8_valid (map Byte.to_N body_bytes) = false ->
  handler env event = ([], Raise UnicodeDecodeError).
Proof.
  intros Hbody Hverify Hutf. unfold handler, parse_body, decode_utf8.
  rewrite Hbody, bind_lift_ok, Hverify, bind_lift_ok, Hutf. reflexivity.
Qed.

Lemma undecodable_body_escapes_witness :
  handler Fixtures.dispatcher_env Samples.raw_request
  = ([], Raise UnicodeDecodeError).
Proof.
  apply (undecodable_body_escapes Fixtures.dispatcher_env Samples.raw_request
           [xff; xfe]).
  - reflexivity.
  - reflexivity.
  - reflexivity.
Defined.

(** A verified JSON object whose [type] is neither 1 nor 2 (or is
    missing) is answered 400 "Unsupported interaction type" and nothing is
    published. *)
Theorem unsupported_type_rejected env event text d :
  delivers env event text (PDict d) ->
  eq_int (dict_get d "type" PNone) PING_INTERACTION = false ->
  eq_int (dict_get d "type" PNone) APPLICATION_COMMAND_INTERACTION = false ->
  handler env event =
    ([JsonLoads text;
      Log INFO "Interaction type: %s" [dict_get d "type" PNone];
      Log WARNING "Unsupported interaction type: %s" [dict_get d "type" PNone]],
     Ok (error_response env 400 "Unsupported interaction type")).
Proof.
  intros Hd Hping Hcommand. rewrite (DispatcherSpec.handler_dispatch _ _ _ _ Hd).
  unfold dispatch. cbn [get].
  rewrite bind_lift_ok, bind_emit, Hping, Hcommand. reflexivity.
Qed.

Lemma unsupported_type_rejected_witness :
  handler Samples.dispatcher_env
    (Fixtures.signed (PDict Samples.component_items)) =
    ([JsonLoads (Fixtures.dumps (PDict Samples.component_items));
      Log INFO "Interaction type: %s" [PInt 3];
      Log WARNING "Unsupported interaction type: %s" [PInt 3]],
     Ok (error_response Samples.dispatcher_env 400
           "Unsupported interaction type")).
Proof.
  apply (unsupported_type_rejected Samples.dispatcher_env
           (Fixtures.signed (PDict Samples.component_items))
           (Fixtures.dumps (PDict Samples.component_items))
           Samples.component_items).
  - DispatcherSpec.delivered.
  - reflexivity.
  - reflexivity.
Defined.

(** X10.  A command invocation with a usable "server" value but without a
    command name, an interaction id or a token (missing or empty) is
    answered 400 "Invalid interaction payload" and nothing is published. *)
Theorem incomplete_interaction_rejected env event text d data sv :
  delivers env event text (PDict d) ->
  eq_int (dict_get d "type" PNone) APPLICATION_COMMAND_INTERACTION = true ->
  _find_server_option_value (PDict d) = Ok (PStr sv) ->
  str_contains "|" sv = true ->
  dict_get d "data" (PDict []) = PDict data ->
  all [dict_get data "name" PNone; dict_get d "id" PNone;
       dict_get d "token" PNone] = false ->
  outcome (handler env event)
  = Ok (error_response env 400 "Invalid interaction payload")
  /\ published (trace (handler env event)) = [].
Proof.
  intros Hd Htype Hfind Hsep Hdata Hall.
  rewrite (DispatcherSpec.handler_dispatch _ _ _ _ Hd). observe.
  unfold dispatch. cbn [get]. rewrite bind_lift_ok, bind_emit.
  unfold PING_INTERACTION, APPLICATION_COMMAND_INTERACTION in *.
  rewrite (eq_int_command_not_ping _ Htype), Htype, Hfind, bind_lift_ok.
  cbn [negb]. rewrite (DispatcherSpec.str_contains_nonempty _ Hsep).
  cbn [negb contains rbind]. rewrite Hsep. cbn [negb].
  rewrite bind_lift_ok, bind_lift_ok, Hdata. cbn [get].
  rewrite !bind_lift_ok, Hall. cbn [negb]. rewrite bind_emit.
  split; reflexivity.
Qed.

Lemma incomplete_interaction_rejected_witness :
  outcome (handler Samples.dispatcher_env
             (Fixtures.signed (PDict Samples.tokenless_items)))
  = Ok (error_response Samples.dispatcher_env 400 "Invalid interaction payload")
  /\ published
       (trace (handler Samples.dispatcher_env
                 (Fixtures.signed (PDict Samples.tokenless_items)))) = [].
Proof.
  apply (incomplete_interaction_rejected Samples.dispatcher_env
           (Fixtures.signed (PDict Samples.tokenless_items))
           (Fixtures.dumps (PDict Samples.tokenless_items))
           Samples.tokenless_items
           (Fixtures.start_data "us-east-1|mc") "us-east-1|mc").
  - DispatcherSpec.delivered.
  - reflexivity.
  - reflexivity.
  - reflexivity.
  - reflexivity.
  - reflexivity.
Defined.

(** *** The "server" option *)

Lemma find_server_option_skips pre rest :
  (forall x, In x pre ->
             exists o, x = PDict o /\
                       eq_str (dict_get o "name" PNone) "server" = false) ->
  _find_server_option (pre ++ rest) = _find_server_option rest.
Proof.
  induction pre as [ | x pre IH ]; intros Hpre; [ reflexivity | ].
  destruct (Hpre x (or_introl eq_refl)) as (o & -> & Hname).
  cbn [app _find_server_option get rbind]. rewrite Hname.
  apply IH. intros y Hy. apply Hpre. now right.
Qed.

(** X11.  Among the options of a command invocation the first one named
    "server" supplies the value; options before it with another name and
    anything after it are ignored. *)
Theorem server_option_first_match d data pre o post :
  dict_get d "data" (PDict []) = PDict data ->
  dict_get data "options" PNone = PList (pre ++ PDict o :: post) ->
  (forall x, In x pre ->
             exists o', x = PDict o' /\
                        eq_str (dict_get o' "name" PNone) "server" = false) ->
  eq_str (dict_get o "name" PNone) "server" = true ->
  _find_server_option_value (PDict d) = Ok (dict_get o "value" PNone).
Proof.
  intros Hdata Hoptions Hpre Hname. unfold _find_server_option_value.
  cbn [get rbind]. rewrite Hdata. cbn [get rbind]. rewrite Hoptions.
  assert (Htruthy : truthy (PList (pre ++ PDict o :: post)) = true)
    by (destruct pre; reflexivity).
  rewrite Htruthy. cbn [iter rbind].
  rewrite (find_server_option_skips _ _ Hpre).
  cbn [_find_server_option get rbind]. rewrite Hname. reflexivity.
Qed.

Lemma server_option_first_match_witness :
  _find_server_option_value (PDict Samples.crowded_items)
  = Ok (PStr "us-east-1|mc").
Proof.
  apply (server_option_first_match Samples.crowded_items Samples.crowded_data
           [PDict [("name", PStr "verbose"); ("value", PBool true)]]
           [("name", PStr "server"); ("value", PStr "us-east-1|mc")]
           [PDict [("name", PStr "server");
                   ("value", PStr "eu-west-1|other")]]).
  - reflexivity.
  - reflexivity.
  - intros x [<- | []]. eexists. split; reflexivity.
  - reflexivity.
Defined.

(** When the interaction has no options, or none of them is named
    "server", no value is found, and the command invocation is answered
    400 "Missing server option". *)
Theorem server_option_absent env event text d data options :
  delivers env event text (PDict d) ->
  eq_int (dict_get d "type" PNone) APPLICATION_COMMAND_INTERACTION = true ->
  dict_get d "data" (PDict []) = PDict data ->
  dict_get data "options" PNone = PNone
  \/ (dict_get data "options" PNone = PList options /\
      forall x, In x options ->
                exists o, x = PDict o /\
                          eq_str (dict_get o "name" PNone) "server" = false) ->
  _find_server_option_value (PDict d) = Ok PNone
  /\ outcome (handler env event)
     = Ok (error_response env 400 "Missing server option")
  /\ published (trace (handler env event)) = [].
Proof.
  intros Hd Htype Hdata Hoptions.
  assert (Hfind : _find_server_option_value (PDict d) = Ok PNone).
  { unfold _find_server_option_value. cbn [get rbind]. rewrite Hdata.
    cbn [get rbind].
    destruct Hoptions as [-> | [-> Hall]]; [ reflexivity | ].
    destruct options as [ | x options ]; [ reflexivity | ].
    cbn [truthy iter rbind].
    rewrite <- (app_nil_r (x :: options)).
    rewrite (find_server_option_skips _ _ Hall). reflexivity. }
  split; [ exact Hfind | ].
  rewrite (DispatcherSpec.handler_dispatch _ _ _ _ Hd). observe.
  unfold dispatch. cbn [get]. rewrite bind_lift_ok, bind_emit.
  unfold PING_INTERACTION, APPLICATION_COMMAND_INTERACTION in *.
  rewrite (eq_int_command_not_ping _ Htype), Htype, Hfind, bind_lift_ok.
  cbn [negb truthy]. rewrite bind_lift_ok, bind_emit. split; reflexivity.
Qed.

Lemma server_option_absent_witness :
  _find_server_option_value (PDict Samples.bare_items) = Ok PNone
  /\ outcome (handler Samples.dispatcher_env
                (Fixtures.signed (PDict Samples.bare_items)))
     = Ok (error_response Samples.dispatcher_env 400 "Missing server option")
  /\ published
       (trace (handler Samples.dispatcher_env
                 (Fixtures.signed (PDict Samples.bare_items)))) = [].
Proof.
  apply (server_option_absent Samples.dispatcher_env
           (Fixtures.signed (PDict Samples.bare_items))
           (Fixtures.dumps (PDict Samples.bare_items))
           Samples.bare_items Samples.bare_data []).
  - DispatcherSpec.delivered.
  - reflexivity.
  - reflexivity.
  - left. reflexivity.
Defined.

End DispatcherMore.

(* ===================================================================== *)
(** ** More on the executor                                               *)
(* ===================================================================== *)

Module ExecutorMore.
Import Py PyFacts Executor Observe.
Local Open Scope py_scope.

Ltac cases := ExecutorSpec.cases.

(** *** Tags and the lookup result *)

Lemma get_tag_loop_skips pre rest tag_key :
  (forall t, In t pre -> opt_eqb (Key t) tag_key = false) ->
  _get_tag_loop (pre ++ rest) tag_key = _get_tag_loop rest tag_key.
Proof.
  induction pre as [ | t pre IH ]; intros Hpre; [ reflexivity | ].
  cbn [app _get_tag_loop]. rewrite (Hpre t (or_introl eq_refl)).
  apply IH. intros t' Ht'. apply Hpre. now right.
Qed.

(** [_get_tag] returns the value of the first tag that has the key;
    tags before it with another key (or none) are passed over and tags
    after it do not matter. *)
Theorem get_tag_first_match pre tag post tag_key :
  (forall t, In t pre -> opt_eqb (Key t) tag_key = false) ->
  Key tag = Some tag_key ->
  _get_tag (Some (pre ++ tag :: post)) tag_key = Value tag.
Proof.
  intros Hpre Hkey.
  assert (H : _get_tag_loop (pre ++ tag :: post) tag_key = Value tag).
  { rewrite (get_tag_loop_skips _ _ _ Hpre). cbn [_get_tag_loop].
    rewrite Hkey. cbn [opt_eqb]. rewrite String.eqb_refl. reflexivity. }
  destruct pre; exact H.
Qed.

Lemma get_tag_first_match_witness :
  _get_tag (Some ([ {| Key := Some "GameServerEC2Discord:ServerId";
                       Value := Some "mc" |};
                    {| Key := Some "GameServerEC2Discord:Hostname";
                       Value := Some "play.example.com" |} ]
                  ++ {| Key := Some "GameServerEC2Discord:MainPort";
                        Value := Some "25565" |}
                  :: [ {| Key := Some "GameServerEC2Discord:MainPort";
                          Value := Some "19132" |} ]))
    "GameServerEC2Discord:MainPort" = Some "25565".
Proof.
  apply (get_tag_first_match
           [ {| Key := Some "GameServerEC2Discord:ServerId";
                Value := Some "mc" |};
             {| Key := Some "GameServerEC2Discord:Hostname";
                Value := Some "play.example.com" |} ]
           {| Key := Some "GameServerEC2Discord:MainPort";
              Value := Some "25565" |}).
  - intros t [<- | [<- | []]]; reflexivity.
  - reflexivity.
Defined.

Lemma get_tag_loop_absent tags tag_key :
  (forall t, In t tags -> opt_eqb (Key t) tag_key = false) ->
  _get_tag_loop tags tag_key = None.
Proof.
  intros H. rewrite <- (app_nil_r tags).
  now rewrite (get_tag_loop_skips _ _ _ H).
Qed.

(** A value [_get_tag] returns is the value of a tag of the list
    that has the requested key. *)
Theorem get_tag_sound tags tag_key v :
  _get_tag tags tag_key = Some v ->
  exists l tag,
    tags = Some l /\ In tag l /\ Key tag = Some tag_key /\
    Value tag = Some v.
Proof.
  destruct tags as [ l | ]; [ | discriminate ].
  intros H. exists l.
  assert (Hloop : _get_tag_loop l tag_key = Some v)
    by (destruct l; [ discriminate | exact H ]).
  clear H. induction l as [ | t l IH ]; [ discriminate | ].
  cbn [_get_tag_loop] in Hloop.
  destruct (opt_eqb (Key t) tag_key) eqn:Hk.
  - exists t. split; [ reflexivity | ]. split; [ now left | ].
    split; [ | exact Hloop ].
    destruct (Key t) as [k | ]; [ | discriminate ].
    cbn [opt_eqb] in Hk. apply String.eqb_eq in Hk. now subst.
  - destruct (IH Hloop) as (tag & _ & Hin & Hkey & Hval).
    exists tag. split; [ reflexivity | ]. split; [ now right | auto ].
Qed.

Lemma get_tag_sound_witness :
  exists l tag,
    Tags (Fixtures.server_instance true) = Some l /\ In tag l /\
    Key tag = Some "GameServerEC2Discord:Hostname" /\
    Value tag = Some "play.example.com".
Proof.
  apply (get_tag_sound (Tags (Fixtures.server_instance true))
           "GameServerEC2Discord:Hostname" "play.example.com").
  reflexivity.
Defined.

Lemma first_instance_skips pre rest :
  (forall r, In r pre -> no_instances r) ->
  first_instance (pre ++ rest) = first_instance rest.
Proof.
  induction pre as [ | r pre IH ]; intros Hpre; [ reflexivity | ].
  cbn [app first_instance].
  destruct (Hpre r (or_introl eq_refl)) as [-> | ->];
    apply IH; intros r' Hr'; apply Hpre; now right.
Qed.

(** X12.  The lookup takes the first instance of the first reservation
    that has any: reservations without instances before it are skipped,
    further instances and reservations are ignored. *)
Theorem found_instance_first pre instance others post :
  (forall r, In r pre -> no_instances r) ->
  found_instance
    {| Reservations :=
         Some (pre ++ {| Instances := Some (instance :: others) |} :: post) |}
  = Some instance.
Proof.
  intros Hpre. unfold found_instance. cbn [Reservations].
  rewrite (first_instance_skips _ _ Hpre). reflexivity.
Qed.

Lemma found_instance_first_witness :
  found_instance
    {| Reservations :=
         Some ([ {| Instances := Some [] |}; {| Instances := None |} ]
               ++ {| Instances :=
                       Some (Fixtures.server_instance true
                             :: [Fixtures.server_instance false]) |}
               :: [ {| Instances := Some [Fixtures.server_instance false] |} ])
    |}
  = Some (Fixtures.server_instance true).
Proof.
  apply (found_instance_first
           [ {| Instances := Some [] |}; {| Instances := None |} ]).
  intros r [<- | [<- | []]]; [ right | left ]; reflexivity.
Defined.

(** The lookup finds nothing exactly when the response has no
    reservations or none of them holds an instance. *)
Theorem found_instance_none response :
  found_instance response = None <->
  (Reservations response = None
   \/ exists reservations,
        Reservations response = Some reservations /\
        forall r, In r reservations -> no_instances r).
Proof.
  unfold found_instance.
  destruct (Reservations response) as [ reservations | ];
    [ | split; auto ].
  split.
  - intros H. right. exists reservations. split; [ reflexivity | ].
    induction reservations as [ | r rs IH ]; [ intros ? [] | ].
    cbn [first_instance] in H.
    destruct (Instances r) as [ [ | i l ] | ] eqn:Hr; try discriminate;
      intros r' [<- | Hin]; unfold no_instances; auto;
      apply (IH H r' Hin).
  - intros [H | (rs & [= <-] & Hall)]; [ discriminate | ].
    rewrite <- (app_nil_r reservations).
    now rewrite (first_instance_skips _ _ Hall).
Qed.

Lemma found_instance_none_witness :
  found_instance {| Reservations := Some [ {| Instances := None |} ] |} = None.
Proof.
  apply (proj2 (found_instance_none
                  {| Reservations := Some [ {| Instances := None |} ] |})).
  right. eexists. split; [ reflexivity | ].
  intros r [<- | []]. left. reflexivity.
Defined.

(** *** Commands on an instance that was found *)

Section FoundInstance.

Variable env : Env.
Variables server_id region : pyval.
Variable response : DescribeInstancesResponse.
Variable instance : Instance.
Variable instance_id : string.

Hypothesis Hclient : boto3_client env region = None.
Hypothesis Hdescribe : describe_instances env region server_id = Ok response.
Hypothesis Hfound : found_instance response = Some instance.
Hypothesis Hid : InstanceId instance = Some instance_id.
Hypothesis Hne : instance_id <> "".

Ltac found :=
  let H := fresh in
  pose proof Hne as H; apply String.eqb_neq in H;
  unfold _send_ec2_command, _get_ec2_client, _find_instance, run_command,
    lookup_calls;
  cbn; rewrite Hclient; cbn; rewrite Hdescribe; cbn; rewrite Hfound, Hid;
  cbn; rewrite H; cbn.


(** X14.  [start], [stop] and [restart] make exactly one call after the
    lookup, on the instance id of the instance found, and return their
    in-progress text when the call succeeds. *)
Theorem lifecycle_command_succeeds name act api text :
  In (name, act, api, text) (lifecycle env) ->
  api region instance_id = None ->
  _send_ec2_command env server_id region (PStr name) =
    (lookup_calls (PStr name) server_id region ++ [act region instance_id],
     Ok text).
Proof.
  intros [[= <- <- <- <-] | [[= <- <- <- <-] | [[= <- <- <- <-] | []]]] Hapi;
    found; rewrite Hapi; reflexivity.
Qed.

(** X15.  When the call of [start], [stop] or [restart] fails with a
    [ClientError], the failure is logged and the outcome is the text
    "Error executing command:" followed by the error detail in a code
    block. *)
Theorem lifecycle_failure_reported name act api text detail :
  In (name, act, api, text) (lifecycle env) ->
  api region instance_id = Some (ClientError detail) ->
  _send_ec2_command env server_id region (PStr name) =
    (lookup_calls (PStr name) server_id region
     ++ [act region instance_id; Log ERROR "EC2 command failed" []],
     Ok ("Error executing command:" ++ nl ++ "```" ++ nl ++ detail ++ nl
         ++ "```")%string).
Proof.
  intros [[= <- <- <- <-] | [[= <- <- <- <-] | [[= <- <- <- <-] | []]]] Hapi;
    found; rewrite Hapi; reflexivity.
Qed.

(** X16.  Any other exception of the call (a connection failure, for
    one) is not caught: it leaves [_send_ec2_command] and no outcome text
    is produced. *)
Theorem lifecycle_other_failure_escapes name act api text e :
  In (name, act, api, text) (lifecycle env) ->
  api region instance_id = Some e ->
  (forall detail, e <> ClientError detail) ->
  _send_ec2_command env server_id region (PStr name) =
    (lookup_calls (PStr name) server_id region ++ [act region instance_id],
     Raise e).
Proof.
  intros [[= <- <- <- <-] | [[= <- <- <- <-] | [[= <- <- <- <-] | []]]]
    Hapi Hother;
    found; rewrite Hapi; cbn;
    (destruct e; try reflexivity; now contradiction (Hother message)).
Qed.

(** X17.  A command that is none of the five names gets the outcome
    "Unknown command"; nothing is called after the lookup. *)
Theorem unknown_command command :
  (forall name, In name ["start"; "stop"; "restart"; "status"; "ip"] ->
                eq_str command name = false) ->
  _send_ec2_command env server_id region command =
    (lookup_calls command server_id region, Ok "Unknown command").
Proof.
  intros Hnone. found.
  rewrite !Hnone by (cbn; tauto). reflexivity.
Qed.

End FoundInstance.


Lemma lifecycle_command_succeeds_witness :
  _send_ec2_command Fixtures.executor_env (PStr "mc") (PStr "us-east-1")
    (PStr "restart") =
    (lookup_calls (PStr "restart") (PStr "mc") (PStr "us-east-1")
     ++ [Ec2Reboot (PStr "us-east-1") "i-0123456789abcdef0"],
     Ok "Rebooting...").
Proof.
  apply (lifecycle_command_succeeds Fixtures.executor_env (PStr "mc")
           (PStr "us-east-1") Samples.mc_response
           (Fixtures.server_instance true) "i-0123456789abcdef0"
           eq_refl eq_refl eq_refl eq_refl
           ltac:(discriminate)
           "restart" Ec2Reboot
           (reboot_instances Fixtures.executor_env) "Rebooting...").
  - cbn. tauto.
  - reflexivity.
Defined.

Lemma lifecycle_failure_reported_witness :
  _send_ec2_command Samples.refusing_env (PStr "mc") (PStr "us-east-1")
    (PStr "stop") =
    (lookup_calls (PStr "stop") (PStr "mc") (PStr "us-east-1")
     ++ [Ec2Stop (PStr "us-east-1") "i-0123456789abcdef0";
         Log ERROR "EC2 command failed" []],
     Ok ("Error executing command:" ++ nl ++ "```" ++ nl
         ++ "IncorrectSpotRequestState" ++ nl ++ "```")%string).
Proof.
  apply (lifecycle_failure_reported Samples.refusing_env (PStr "mc")
           (PStr "us-east-1") Samples.mc_response
           (Fixtures.server_instance true) "i-0123456789abcdef0"
           eq_refl eq_refl eq_refl eq_refl
           ltac:(discriminate)
           "stop" Ec2Stop
           (stop_instances Samples.refusing_env) "Stopping...").
  - cbn. tauto.
  - reflexivity.
Defined.

Lemma lifecycle_other_failure_escapes_witness :
  _send_ec2_command Samples.unreachable_env (PStr "mc") (PStr "us-east-1")
    (PStr "start") =
    (lookup_calls (PStr "start") (PStr "mc") (PStr "us-east-1")
     ++ [Ec2Start (PStr "us-east-1") "i-0123456789abcdef0"],
     Raise (OtherError "EndpointConnectionError")).
Proof.
  apply (lifecycle_other_failure_escapes Samples.unreachable_env (PStr "mc")
           (PStr "us-east-1") Samples.mc_response
           (Fixtures.server_instance true) "i-0123456789abcdef0"
           eq_refl eq_refl eq_refl eq_refl
           ltac:(discriminate)
           "start" Ec2Start
           (start_instances Samples.unreachable_env) "Starting...").
  - cbn. tauto.
  - reflexivity.
  - discriminate.
Defined.

Lemma unknown_command_witness :
  _send_ec2_command Fixtures.executor_env (PStr "mc") (PStr "us-east-1")
    (PStr "Start") =
    (lookup_calls (PStr "Start") (PStr "mc") (PStr "us-east-1"),
     Ok "Unknown command").
Proof.
  apply (unknown_command Fixtures.executor_env (PStr "mc")
           (PStr "us-east-1") Samples.mc_response
           (Fixtures.server_instance true) "i-0123456789abcdef0"
           eq_refl eq_refl eq_refl eq_refl
           ltac:(discriminate)).
  intros name [<- | [<- | [<- | [<- | [<- | []]]]]]; reflexivity.
Defined.

(** *** Calls on the instance, whatever the lookup gives *)

(** X18.  Only [start], [stop] and [restart] can lead to a call that acts
    on an instance: for any other command no such call is made, whatever
    the control plane answers. *)
Theorem control_actions_need_lifecycle_command env server_id region command :
  eq_str command "start" = false ->
  eq_str command "stop" = false ->
  eq_str command "restart" = false ->
  filter is_control_action
    (trace (_send_ec2_command env server_id region command)) = [].
Proof.
  intros Hstart Hstop Hrestart.
  unfold _send_ec2_command, _get_ec2_client, _find_instance, run_command.
  rewrite Hstart, Hstop, Hrestart. cbn. cases. all: reflexivity.
Qed.

Lemma control_actions_need_lifecycle_command_witness :
  filter is_control_action
    (trace (_send_ec2_command Fixtures.executor_env (PStr "mc")
              (PStr "us-east-1") (PStr "status"))) = [].
Proof.
  apply (control_actions_need_lifecycle_command Fixtures.executor_env
           (PStr "mc") (PStr "us-east-1") (PStr "status")).
  - reflexivity.
  - reflexivity.
  - reflexivity.
Defined.

(** X19.  One command leads to at most one call that acts on an
    instance. *)
Theorem at_most_one_control_action env server_id region command :
  (List.length
     (filter is_control_action
        (trace (_send_ec2_command env server_id region command))) <= 1)%nat.
Proof.
  unfold _send_ec2_command, _get_ec2_client, _find_instance, run_command.
  cbn. cases. all: cbn; lia.
Qed.

(** X20.  A call that acts on an instance always names the [InstanceId] of
    the instance the lookup returned for the server id. *)
Theorem control_action_targets_found_instance env server_id region command
  a instance_id :
  In a (trace (_send_ec2_command env server_id region command)) ->
  target_of a = Some instance_id ->
  exists response instance,
    describe_instances env region server_id = Ok response /\
    found_instance response = Some instance /\
    InstanceId instance = Some instance_id.
Proof.
  unfold _send_ec2_command, _get_ec2_client, _find_instance, run_command.
  cbn. cases.
  all: intros Hin Htarget;
    repeat (destruct Hin as [<- | Hin]; [ try discriminate Htarget | ]);
    try contradiction;
    injection Htarget as <-; do 2 eexists; repeat split; eassumption.
Qed.

Lemma control_action_targets_found_instance_witness :
  exists response instance,
    describe_instances Fixtures.executor_env (PStr "us-east-1") (PStr "mc")
    = Ok response /\
    found_instance response = Some instance /\
    InstanceId instance = Some "i-0123456789abcdef0".
Proof.
  apply (control_action_targets_found_instance Fixtures.executor_env
           (PStr "mc") (PStr "us-east-1") (PStr "start")
           (Ec2Start (PStr "us-east-1") "i-0123456789abcdef0")).
  - vm_compute. tauto.
  - reflexivity.
Defined.

(** *** The edit of the original message *)

(** [_patch_interaction] sends one request, the one described by
    [edit_request], however the call ends. *)
Lemma patch_interaction_edits env interaction_token content :
  filter is_edit (trace (_patch_interaction env interaction_token content))
  = [edit_request env interaction_token content].
Proof.
  unfold _patch_interaction, edit_request, edit_url, edit_data, edit_headers.
  cbn. cases. all: reflexivity.
Qed.

Lemma send_ec2_command_no_edit env server_id region command :
  filter is_edit (trace (_send_ec2_command env server_id region command)) = [].
Proof.
  unfold _send_ec2_command, _get_ec2_client, _find_instance, run_command.
  cbn. cases. all: reflexivity.
Qed.

Lemma parse_sns_message_no_edit env event :
  filter is_edit (trace (_parse_sns_message env event)) = [].
Proof.
  destruct (ExecutorSpec.parse_sns_message_trace env event)
    as [-> | [text ->]]; reflexivity.
Qed.



(** The run of the handler on a complete message. *)
Lemma handler_complete env event t m :
  _parse_sns_message env event = (t, Ok (PDict m)) ->
  all [dict_get m "command" PNone; dict_get m "interactionToken" PNone;
       dict_get m "serverId" PNone; dict_get m "instanceRegion" PNone]
  = true ->
  handler env event =
    let sent := _send_ec2_command env (dict_get m "serverId" PNone)
                  (dict_get m "instanceRegion" PNone)
                  (dict_get m "command" PNone) in
    match outcome sent with
    | Ok text =>
        let patch := _patch_interaction env
                       (dict_get m "interactionToken" PNone) text in
        (t ++ trace sent
           ++ Log INFO ("Updating Discord interaction with message:"
                        ++ nl ++ "%s")%string [PStr text]
           :: trace patch,
         outcome patch)
    | Raise e => (t ++ trace sent, Raise e)
    end.
Proof.
  intros Hparse Hall. unfold handler. rewrite Hparse, bind_ok. cbn [get].
  rewrite !bind_lift_ok, Hall. cbn [negb]. cbv zeta.
  destruct (_send_ec2_command env _ _ _) as [ts [text | e]];
    cbn [trace outcome fst snd].
  - rewrite bind_ok, bind_emit. reflexivity.
  - reflexivity.
Qed.

(** X22.  For a complete message whose command produced an outcome text,
    the handler sends exactly one edit: a PATCH of the original message
    of the interaction token, with the outcome text as content. *)
Theorem handler_edits_once env event t m text :
  _parse_sns_message env event = (t, Ok (PDict m)) ->
  all [dict_get m "command" PNone; dict_get m "interactionToken" PNone;
       dict_get m "serverId" PNone; dict_get m "instanceRegion" PNone]
  = true ->
  outcome (_send_ec2_command env (dict_get m "serverId" PNone)
             (dict_get m "instanceRegion" PNone) (dict_get m "command" PNone))
  = Ok text ->
  filter is_edit (trace (handler env event))
  = [edit_request env (dict_get m "interactionToken" PNone) text].
Proof.
  intros Hparse Hall Hsent.
  rewrite (handler_complete _ _ _ _ Hparse Hall). cbv zeta. rewrite Hsent.
  cbn [trace fst]. rewrite !filter_app. cbn [filter is_edit].
  rewrite send_ec2_command_no_edit, patch_interaction_edits.
  pose proof (parse_sns_message_no_edit env event) as Ht.
  rewrite Hparse in Ht. cbn [trace fst] in Ht. rewrite Ht. reflexivity.
Qed.

Lemma handler_edits_once_witness :
  filter is_edit
    (trace (handler Fixtures.executor_env
              (Fixtures.delivery
                 (Fixtures.channel_message "start" "mc" "us-east-1"))))
  = [edit_request Fixtures.executor_env (PStr "tok-1") "Starting..."].
Proof.
  apply (handler_edits_once Fixtures.executor_env
           (Fixtures.delivery
              (Fixtures.channel_message "start" "mc" "us-east-1"))
           [JsonLoads
              (Fixtures.dumps
                 (Fixtures.channel_message "start" "mc" "us-east-1"))]
           [("interactionId", PStr "1001");
            ("interactionToken", PStr "tok-1");
            ("command", PStr "start");
            ("serverId", PStr "mc");
            ("region", PStr "us-east-1");
            ("instanceRegion", PStr "us-east-1")]
           "Starting...").
  - reflexivity.
  - reflexivity.
  - reflexivity.
Defined.

(** X23.  When the command ends with an exception (a failed lookup, for
    one), the handler ends with the same exception and no edit is sent:
    the interaction keeps its deferred state. *)
Theorem failed_command_sends_no_edit env event t m e :
  _parse_sns_message env event = (t, Ok (PDict m)) ->
  all [dict_get m "command" PNone; dict_get m "interactionToken" PNone;
       dict_get m "serverId" PNone; dict_get m "instanceRegion" PNone]
  = true ->
  outcome (_send_ec2_command env (dict_get m "serverId" PNone)
             (dict_get m "instanceRegion" PNone) (dict_get m "command" PNone))
  = Raise e ->
  outcome (handler env event) = Raise e
  /\ filter is_edit (trace (handler env event)) = [].
Proof.
  intros Hparse Hall Hsent.
  rewrite (handler_complete _ _ _ _ Hparse Hall). cbv zeta. rewrite Hsent.
  cbn [trace outcome fst snd]. split; [ reflexivity | ].
  rewrite filter_app, send_ec2_command_no_edit.
  pose proof (parse_sns_message_no_edit env event) as Ht.
  rewrite Hparse in Ht. cbn [trace fst] in Ht. rewrite Ht. reflexivity.
Qed.

(** *** The Lambda event *)

(** X24.  Only the first record of the event is read: two events whose
    record lists start with the same record lead to the same run, whatever
    follows in the lists. *)
Theorem first_record_only env event event' record rest rest' :
  dict_get event "Records" PNone = PList (record :: rest) ->
  dict_get event' "Records" PNone = PList (record :: rest') ->
  handler env (PDict event) = handler env (PDict event').
Proof.
  intros H H'. unfold handler, _parse_sns_message. cbn [get].
  rewrite !bind_lift_ok, H, H'. reflexivity.
Qed.

Lemma first_record_only_witness :
  handler Fixtures.executor_env
    (PDict [("Records",
             PList [PDict [("Sns", PDict [("Message", PStr "one")])];
                    PDict [("Sns", PDict [("Message", PStr "two")])]])])
  = handler Fixtures.executor_env
      (PDict [("Records",
               PList [PDict [("Sns", PDict [("Message", PStr "one")])]])]).
Proof.
  apply (first_record_only Fixtures.executor_env _ _
           (PDict [("Sns", PDict [("Message", PStr "one")])])
           [PDict [("Sns", PDict [("Message", PStr "two")])]] []).
  - reflexivity.
  - reflexivity.
Defined.

(** An event without records (the key absent, or an empty list)
    makes the handler parse the text of an empty JSON object; when the
    parser returns the empty dict, the message is dropped as incomplete. *)
Theorem event_without_records env event :
  truthy (dict_get event "Records" PNone) = false ->
  json_loads env "{}" = Ok (PDict []) ->
  handler env (PDict event) =
    ([JsonLoads "{}";
      Log WARNING "Incomplete SNS message payload: %s" [PDict []]],
     Ok tt).
Proof.
  intros Hrecords Hloads. unfold handler, _parse_sns_message. cbn [get].
  rewrite bind_lift_ok, Hrecords. cbn. rewrite Hloads. reflexivity.
Qed.

Lemma failed_command_sends_no_edit_witness :
  outcome (handler Samples.executor_env
             (Fixtures.delivery
                (Fixtures.channel_message "start" "locked" "us-east-1")))
  = Raise (ClientError "An error occurred (UnauthorizedOperation) when calling the DescribeInstances operation")
  /\ filter is_edit
       (trace (handler Samples.executor_env
                 (Fixtures.delivery
                    (Fixtures.channel_message "start" "locked" "us-east-1"))))
     = [].
Proof.
  apply (failed_command_sends_no_edit Samples.executor_env
           (Fixtures.delivery
              (Fixtures.channel_message "start" "locked" "us-east-1"))
           [JsonLoads
              (Fixtures.dumps
                 (Fixtures.channel_message "start" "locked" "us-east-1"))]
           [("interactionId", PStr "1001");
            ("interactionToken", PStr "tok-1");
            ("command", PStr "start");
            ("serverId", PStr "locked");
            ("region", PStr "us-east-1");
            ("instanceRegion", PStr "us-east-1")]).
  - reflexivity.
  - reflexivity.
  - reflexivity.
Defined.

Lemma event_without_records_witness :
  handler Samples.executor_env (PDict [("Records", PList [])]) =
    ([JsonLoads "{}";
      Log WARNING "Incomplete SNS message payload: %s" [PDict []]],
     Ok tt).
Proof.
  apply (event_without_records Samples.executor_env [("Records", PList [])]).
  - reflexivity.
  - reflexivity.
Defined.

End ExecutorMore.

(* ===================================================================== *)
(** ** From the dispatcher to the executor                                *)
(* ===================================================================== *)

Module PipelineMore.
Import Py PyFacts Observe.
Local Open Scope py_scope.

Lemma partition_join region server_id :
  str_contains "|" region = false ->
  partition "|" (region ++ "|" ++ server_id) = Some (region, server_id).
Proof.
  induction region as [ | c region IH ]; intros Hregion.
  - cbn [append partition prefix].
    destruct (ascii_dec "|" "|") as [ _ | Hc ]; [ | now contradiction Hc ].
    rewrite prefix_empty. cbn [String.length Nat.sub]. rewrite Nat.sub_0_r.
    cbn [substring]. now rewrite substring_all.
  - apply str_contains_cons in Hregion as [Hc Hregion].
    specialize (IH Hregion). cbn [append] in IH.
    cbn [append partition prefix].
    destruct (ascii_dec "|" c) as [ Heq | _ ]; [ now contradiction Hc | ].
    now rewrite IH.
Qed.

(** The run of the dispatcher on a command invocation it accepts. *)
Lemma accepted_run env event text d data region server_id :
  Dispatcher.delivers env event text (PDict d) ->
  eq_int (dict_get d "type" PNone) 2 = true ->
  Dispatcher._find_server_option_value (PDict d)
  = Ok (PStr (region ++ "|" ++ server_id)) ->
  str_contains "|" region = false ->
  dict_get d "data" (PDict []) = PDict data ->
  all [dict_get data "name" PNone; dict_get d "id" PNone;
       dict_get d "token" PNone] = true ->
  let topic := Dispatcher.MANAGER_INSTRUCTION_SNS_TOPIC_ARN env in
  let message :=
    Dispatcher.json_dumps env
      (Dispatcher.sns_message (dict_get data "name" PNone)
         (dict_get d "id" PNone) (dict_get d "token" PNone)
         region server_id) in
  Dispatcher.handler env event =
    ([JsonLoads text;
      Log INFO "Interaction type: %s" [dict_get d "type" PNone];
      Log INFO
        "Publishing %s command for server %s in region %s (interaction %s)"
        [dict_get data "name" PNone; PStr server_id; PStr region;
         dict_get d "id" PNone];
      SnsPublish topic message],
     match Dispatcher.sns_publish env topic message with
     | None => Ok (deferred env)
     | Some e => Raise e
     end).
Proof.
  intros Hd Htype Hfind Hregion Hdata Hall.
  pose proof (partition_join region server_id Hregion) as Hpart.
  assert (Hsep : str_contains "|" (region ++ "|" ++ server_id) = true)
    by (unfold str_contains; now rewrite Hpart).
  rewrite (DispatcherSpec.handler_dispatch _ _ _ _ Hd).
  unfold Dispatcher.dispatch. cbn [get]. rewrite bind_lift_ok, bind_emit.
  unfold Dispatcher.PING_INTERACTION,
    Dispatcher.APPLICATION_COMMAND_INTERACTION.
  rewrite (eq_int_command_not_ping _ Htype), Htype, Hfind, bind_lift_ok.
  cbn [negb]. rewrite (DispatcherSpec.str_contains_nonempty _ Hsep).
  cbn [negb contains rbind]. rewrite Hsep. cbn [negb].
  rewrite bind_lift_ok, bind_lift_ok, Hdata. cbn [get].
  rewrite !bind_lift_ok, Hall. cbn [negb split1].
  unfold str_split1. rewrite Hpart, bind_lift_ok.
  change (unpack2 [region; server_id]) with (Ok (region, server_id)).
  rewrite bind_lift_ok. cbn [fst snd].
  unfold Dispatcher._publish_sns_message. rewrite bind_emit.
  cbv zeta. destruct (Dispatcher.sns_publish env _ _); reflexivity.
Qed.

(** X25.  A "server" value with nothing before or nothing after its first
    [|] passes the dispatcher: the command is published and acknowledged
    as deferred.  The executor then finds the message incomplete and
    drops it, so the acknowledged interaction is never edited. *)
Theorem accepted_then_dropped denv eenv event text d data region server_id :
  Dispatcher.delivers denv event text (PDict d) ->
  eq_int (dict_get d "type" PNone) 2 = true ->
  Dispatcher._find_server_option_value (PDict d)
  = Ok (PStr (region ++ "|" ++ server_id)) ->
  str_contains "|" region = false ->
  dict_get d "data" (PDict []) = PDict data ->
  all [dict_get data "name" PNone; dict_get d "id" PNone;
       dict_get d "token" PNone] = true ->
  region = "" \/ server_id = "" ->
  let topic := Dispatcher.MANAGER_INSTRUCTION_SNS_TOPIC_ARN denv in
  let payload :=
    Dispatcher.sns_message (dict_get data "name" PNone)
      (dict_get d "id" PNone) (dict_get d "token" PNone) region server_id in
  let message := Dispatcher.json_dumps denv payload in
  Dispatcher.sns_publish denv topic message = None ->
  Executor.json_loads eenv message = Ok payload ->
  outcome (Dispatcher.handler denv event) = Ok (deferred denv)
  /\ Dispatcher.published (trace (Dispatcher.handler denv event))
     = [(topic, message)]
  /\ Executor.handler eenv (sns_event message) =
       ([JsonLoads message;
         Log WARNING "Incomplete SNS message payload: %s" [payload]],
        Ok tt).
Proof.
  intros Hd Htype Hfind Hregion Hdata Hall Hempty topic payload message
    Hpublish Hloads.
  pose proof (accepted_run _ _ _ _ _ _ _ Hd Htype Hfind Hregion Hdata Hall)
    as Hrun.
  cbv zeta in Hrun. fold topic payload message in Hrun.
  rewrite Hrun, Hpublish. split; [ reflexivity | ]. split; [ reflexivity | ].
  unfold Executor.handler, Executor._parse_sns_message, sns_event.
  cbn. rewrite Hloads. cbn.
  apply andb_prop in Hall as [Hname Hrest].
  apply andb_prop in Hrest as [_ Hrest].
  apply andb_prop in Hrest as [Htoken _].
  rewrite Hname, Htoken.
  destruct Hempty as [-> | ->]; cbn; rewrite ?andb_false_r; reflexivity.
Qed.

Lemma accepted_then_dropped_witness :
  outcome (Dispatcher.handler Samples.dispatcher_env
             (Fixtures.signed (PDict Samples.open_ended_items)))
  = Ok (deferred Samples.dispatcher_env)
  /\ Dispatcher.published
       (trace (Dispatcher.handler Samples.dispatcher_env
                 (Fixtures.signed (PDict Samples.open_ended_items))))
     = [(Dispatcher.MANAGER_INSTRUCTION_SNS_TOPIC_ARN Samples.dispatcher_env,
         Fixtures.dumps (Fixtures.channel_message "start" "" "us-east-1"))]
  /\ Executor.handler Fixtures.executor_env
       (sns_event
          (Fixtures.dumps (Fixtures.channel_message "start" "" "us-east-1")))
     = ([JsonLoads
           (Fixtures.dumps (Fixtures.channel_message "start" "" "us-east-1"));
         Log WARNING "Incomplete SNS message payload: %s"
           [Fixtures.channel_message "start" "" "us-east-1"]],
        Ok tt).
Proof.
  apply (accepted_then_dropped Samples.dispatcher_env Fixtures.executor_env
           (Fixtures.signed (PDict Samples.open_ended_items))
           (Fixtures.dumps (PDict Samples.open_ended_items))
           Samples.open_ended_items (Fixtures.start_data "us-east-1|")
           "us-east-1" "").
  - DispatcherSpec.delivered.
  - reflexivity.
  - reflexivity.
  - reflexivity.
  - reflexivity.
  - reflexivity.
  - right. reflexivity.
  - reflexivity.
  - reflexivity.
Defined.

(** X26.  When the executor's parser gives back the dict the dispatcher
    serialised, a published command with a region and a server id that
    are not empty is carried out: the executor runs the command named in
    the interaction for that server id in that region. *)
Theorem published_command_is_executed denv eenv event text d data region
  server_id :
  Dispatcher.delivers denv event text (PDict d) ->
  eq_int (dict_get d "type" PNone) 2 = true ->
  Dispatcher._find_server_option_value (PDict d)
  = Ok (PStr (region ++ "|" ++ server_id)) ->
  str_contains "|" region = false ->
  dict_get d "data" (PDict []) = PDict data ->
  all [dict_get data "name" PNone; dict_get d "id" PNone;
       dict_get d "token" PNone] = true ->
  region <> "" -> server_id <> "" ->
  let topic := Dispatcher.MANAGER_INSTRUCTION_SNS_TOPIC_ARN denv in
  let payload :=
    Dispatcher.sns_message (dict_get data "name" PNone)
      (dict_get d "id" PNone) (dict_get d "token" PNone) region server_id in
  let message := Dispatcher.json_dumps denv payload in
  Executor.json_loads eenv message = Ok payload ->
  Dispatcher.published (trace (Dispatcher.handler denv event))
  = [(topic, message)]
  /\ exists rest,
       trace (Executor.handler eenv (sns_event message)) =
         JsonLoads message
         :: trace (Executor._send_ec2_command eenv (PStr server_id)
                     (PStr region) (dict_get data "name" PNone))
         ++ rest.
Proof.
  intros Hd Htype Hfind Hregion Hdata Hall Hr Hs topic payload message Hloads.
  pose proof (accepted_run _ _ _ _ _ _ _ Hd Htype Hfind Hregion Hdata Hall)
    as Hrun.
  cbv zeta in Hrun. fold topic payload message in Hrun.
  rewrite Hrun. split; [ reflexivity | ].
  assert (Hparse : Executor._parse_sns_message eenv (sns_event message)
                   = ([JsonLoads message], Ok payload)).
  { unfold Executor._parse_sns_message, sns_event. cbn. rewrite Hloads.
    reflexivity. }
  apply andb_prop in Hall as [Hname Hrest].
  apply andb_prop in Hrest as [_ Hrest].
  apply andb_prop in Hrest as [Htoken _].
  apply String.eqb_neq in Hr, Hs.
  rewrite (ExecutorMore.handler_complete eenv _ _ _ Hparse);
    [ | cbn; rewrite Hname, Htoken, Hr, Hs; reflexivity ].
  cbv zeta.
  change (dict_get _ "serverId" PNone) with (PStr server_id).
  change (dict_get _ "instanceRegion" PNone) with (PStr region).
  change (dict_get _ "command" PNone) with (dict_get data "name" PNone).
  destruct (Executor._send_ec2_command eenv _ _ _) as [ts [answer | e]];
    cbn [trace outcome fst snd app].
  - eexists. reflexivity.
  - exists []. now rewrite app_nil_r.
Qed.

Lemma published_command_is_executed_witness :
  Dispatcher.published
    (trace (Dispatcher.handler Samples.dispatcher_env
              (Fixtures.signed (Fixtures.start_interaction "us-east-1|mc"))))
  = [(Dispatcher.MANAGER_INSTRUCTION_SNS_TOPIC_ARN Samples.dispatcher_env,
      Fixtures.dumps (Fixtures.channel_message "start" "mc" "us-east-1"))]
  /\ exists rest,
       trace (Executor.handler Fixtures.executor_env
                (sns_event
                   (Fixtures.dumps
                      (Fixtures.channel_message "start" "mc" "us-east-1")))) =
         JsonLoads
           (Fixtures.dumps (Fixtures.channel_message "start" "mc" "us-east-1"))
         :: trace (Executor._send_ec2_command Fixtures.executor_env
                     (PStr "mc") (PStr "us-east-1") (PStr "start"))
         ++ rest.
Proof.
  apply (published_command_is_executed Samples.dispatcher_env
           Fixtures.executor_env
           (Fixtures.signed (Fixtures.start_interaction "us-east-1|mc"))
           (Fixtures.dumps (Fixtures.start_interaction "us-east-1|mc"))
           (Fixtures.start_items "us-east-1|mc")
           (Fixtures.start_data "us-east-1|mc") "us-east-1" "mc").
  - DispatcherSpec.delivered.
  - reflexivity.
  - reflexivity.
  - reflexivity.
  - reflexivity.
  - reflexivity.
  - discriminate.
  - discriminate.
  - reflexivity.
Defined.

End PipelineMore.

(* ===================================================================== *)
(** ** The scripts                                                        *)
(* ===================================================================== *)

Module ScriptsMore.
Import Py PyFacts Observe.
Local Open Scope py_scope.

(** X27.  The value of a choice is the region, a [|] and the server id;
    when the region holds no [|], the split the dispatcher makes gives
    back exactly the region and the server id, even if the id holds a
    [|] itself. *)
Theorem choice_value_splits_back s name region game_server_id :
  Commands.item s "choiceDisplayName" = Ok name ->
  Commands.item s "region" = Ok region ->
  Commands.item s "gameServerId" = Ok game_server_id ->
  str_contains "|" region = false ->
  exists value,
    Commands.server_choice s
    = Ok (PDict [("name", PStr name); ("value", PStr value)]) /\
    split1 "|" (PStr value) = Ok [region; game_server_id].
Proof.
  intros Hname Hregion Hid Hsep. eexists. split.
  - unfold Commands.server_choice. rewrite Hname, Hregion, Hid. reflexivity.
  - cbn [split1]. unfold str_split1.
    now rewrite (PipelineMore.partition_join _ _ Hsep).
Qed.

Lemma choice_value_splits_back_witness :
  exists value,
    Commands.server_choice
      [("region", "eu-west-1"); ("gameServerId", "fac|torio");
       ("discordGuildId", "7001"); ("choiceDisplayName", "Factorio")]
    = Ok (PDict [("name", PStr "Factorio"); ("value", PStr value)]) /\
    split1 "|" (PStr value) = Ok ["eu-west-1"; "fac|torio"].
Proof.
  apply (choice_value_splits_back
           [("region", "eu-west-1"); ("gameServerId", "fac|torio");
            ("discordGuildId", "7001"); ("choiceDisplayName", "Factorio")]
           "Factorio" "eu-west-1" "fac|torio").
  - reflexivity.
  - reflexivity.
  - reflexivity.
  - reflexivity.
Defined.

Lemma server_choices_length servers choices :
  Commands.server_choices servers = Ok choices ->
  List.length choices = List.length servers.
Proof.
  revert choices. induction servers as [ | s servers IH ]; intros choices.
  - intros [= <-]. reflexivity.
  - cbn [Commands.server_choices].
    destruct (Commands.server_choice s) as [choice | e]; cbn [rbind];
      [ | discriminate ].
    destruct (Commands.server_choices servers) as [rest | e]; cbn [rbind];
      [ | discriminate ].
    intros [= <-]. cbn [List.length]. now rewrite (IH rest eq_refl).
Qed.

(** The payload, once the choices are built. *)
Lemma build_command_payload_items servers payload :
  Commands._build_command_payload servers = Ok payload ->
  exists choices,
    Commands.server_choices servers = Ok choices /\
    Commands.payload_items (Commands.server_option choices) Commands.commands
    = Ok payload.
Proof.
  unfold Commands._build_command_payload.
  destruct (Commands.server_choices servers) as [choices | e]; cbn [rbind];
    [ eauto | discriminate ].
Qed.

(** X28.  The script registers five commands, named start, stop, restart,
    ip and status in this order, and the executor knows every one of
    them: none falls through to "Unknown command". *)
Theorem registered_commands_are_known servers payload :
  Commands._build_command_payload servers = Ok payload ->
  map Commands.command_name payload =
    [PStr "start"; PStr "stop"; PStr "restart"; PStr "ip"; PStr "status"]
  /\ Forall (fun entry =>
               forall env client instance instance_id,
                 outcome (Executor.run_command env client instance instance_id
                            (Commands.command_name entry)) <> Ok None)
       payload.
Proof.
  intros Hbuild.
  destruct (build_command_payload_items _ _ Hbuild) as (choices & _ & Hitems).
  cbn in Hitems. injection Hitems as <-. split; [ reflexivity | ].
  repeat constructor; intros env client instance instance_id;
    cbn [Commands.command_name dict_get lookup String.eqb Ascii.eqb Bool.eqb];
    unfold Executor.run_command; cbn;
    try discriminate.
  - destruct (Executor.start_instances env client instance_id); discriminate.
  - destruct (Executor.stop_instances env client instance_id); discriminate.
  - destruct (Executor.reboot_instances env client instance_id); discriminate.
Qed.

Lemma registered_commands_are_known_witness :
  exists payload,
    Commands._build_command_payload Samples.servers = Ok payload /\
    map Commands.command_name payload =
      [PStr "start"; PStr "stop"; PStr "restart"; PStr "ip"; PStr "status"].
Proof.
  destruct (Commands._build_command_payload Samples.servers)
    as [payload | e] eqn:Hbuild; [ | discriminate Hbuild ].
  exists payload. split; [ reflexivity | ].
  exact (proj1 (registered_commands_are_known Samples.servers payload Hbuild)).
Defined.

(** Every registered command carries exactly one option: the
    required string option named "server", the name the dispatcher looks
    for, with one choice per entry of [servers.json]. *)
Theorem every_command_offers_the_servers servers payload :
  Commands._build_command_payload servers = Ok payload ->
  exists choices,
    Commands.server_choices servers = Ok choices /\
    List.length choices = List.length servers /\
    Forall (fun entry =>
              exists d,
                entry = PDict d /\
                lookup "options" d
                = Some (PList [PDict [("type", PInt 3);
                                      ("name", PStr "server");
                                      ("name_localizations",
                                       PDict [("pt-BR", PStr "servidor")]);
                                      ("description",
                                       PStr "Which server to run the command for");
                                      ("description_localizations",
                                       PDict [("pt-BR",
                                               PStr "Para qual servidor executar o comando")]);
                                      ("required", PBool true);
                                      ("choices", PList choices)]]))
      payload.
Proof.
  intros Hbuild.
  destruct (build_command_payload_items _ _ Hbuild)
    as (choices & Hchoices & Hitems).
  exists choices. split; [ exact Hchoices | ].
  split; [ exact (server_choices_length _ _ Hchoices) | ].
  cbn in Hitems. injection Hitems as <-.
  repeat constructor; eexists; split; reflexivity.
Qed.

Lemma every_command_offers_the_servers_witness :
  exists payload choices,
    Commands._build_command_payload Samples.servers = Ok payload /\
    Commands.server_choices Samples.servers = Ok choices /\
    List.length choices = 2%nat.
Proof.
  destruct (Commands._build_command_payload Samples.servers)
    as [payload | e] eqn:Hbuild; [ | discriminate Hbuild ].
  destruct (every_command_offers_the_servers Samples.servers payload Hbuild)
    as (choices & Hchoices & Hlength & _).
  exists payload, choices. auto.
Defined.

(** *** The Terraform state *)

Lemma resource_agrees resource b :
  TfState.is_server_resource resource = Ok b ->
  if b
  then exists tags,
         TfState.server_tags resource = Ok (Some tags) /\ TfState.tagged tags
  else TfState.server_tags resource = Ok None.
Proof.
  unfold TfState.is_server_resource, TfState.server_tags.
  destruct resource as [ | | | | | | d ]; try discriminate.
  cbn [get rbind].
  destruct (dict_get d "values" (PDict [])) as [ | | | | | | values ];
    try discriminate.
  cbn [get rbind].
  destruct (eq_str (dict_get d "type" PNone) "aws_spot_instance_request");
    cbn [negb]; [ | intros [= <-]; reflexivity ].
  destruct (truthy (dict_get values "tags" PNone)) eqn:Htags;
    [ | cbn; intros [= <-]; reflexivity ].
  destruct (dict_get values "tags" PNone) as [ | | | | | | tags ];
    try discriminate.
  cbn [get rbind]. intros [= <-].
  destruct (truthy (dict_get tags TfState.SERVER_ID_TAG PNone)) eqn:Hid;
    [ | reflexivity ].
  eexists. split; [ reflexivity | ]. exists tags. auto.
Qed.

Lemma resources_agree resources b :
  TfState.any_server_resource resources = Ok b ->
  if b
  then exists tags,
         TfState.first_server_tags resources = Ok (Some tags) /\
         TfState.tagged tags
  else TfState.first_server_tags resources = Ok None.
Proof.
  induction resources as [ | r resources IH ].
  - intros [= <-]. reflexivity.
  - cbn [TfState.any_server_resource TfState.first_server_tags].
    destruct (TfState.is_server_resource r) as [hit | e] eqn:Hr;
      cbn [rbind]; [ | discriminate ].
    pose proof (resource_agrees _ _ Hr) as Hagree.
    destruct hit.
    + intros [= <-]. destruct Hagree as (tags & -> & Htagged).
      cbn [rbind]. eauto.
    + rewrite Hagree. cbn [rbind]. exact IH.
Qed.

Lemma children_agree children b :
  TfState.any_server_child children = Ok b ->
  if b
  then exists tags,
         TfState.first_child_tags children = Ok (Some tags) /\
         TfState.tagged tags
  else TfState.first_child_tags children = Ok None.
Proof.
  induction children as [ | child children IH ].
  - intros [= <-]. reflexivity.
  - cbn [TfState.any_server_child TfState.first_child_tags].
    destruct (get child "resources" (PList [])) as [found | e];
      cbn [rbind]; [ | discriminate ].
    destruct (iter found) as [resources | e]; cbn [rbind]; [ | discriminate ].
    destruct (TfState.any_server_resource resources) as [hit | e] eqn:Hr;
      cbn [rbind]; [ | discriminate ].
    pose proof (resources_agree _ _ Hr) as Hagree.
    destruct hit.
    + intros [= <-]. destruct Hagree as (tags & -> & Htagged).
      cbn [rbind]. eauto.
    + rewrite Hagree. cbn [rbind]. exact IH.
Qed.

Lemma server_module_has_tags_aux module :
  TfState._is_server_module module = Ok true ->
  exists tags,
    TfState._extract_tags module = Ok tags /\ TfState.tagged tags.
Proof.
  unfold TfState._is_server_module, TfState._extract_tags.
  destruct (get module "child_modules" (PList [])) as [found | e];
    cbn [rbind]; [ | discriminate ].
  destruct (iter found) as [children | e]; cbn [rbind]; [ | discriminate ].
  intros H. destruct (children_agree _ _ H) as (tags & -> & Htagged).
  cbn [rbind]. eauto.
Qed.

(** X29.  [_is_server_module] and [_extract_tags] agree: for a module the
    first accepts, the second returns the tags of a spot instance request,
    a dict with a server id that is not empty; for a module the first
    turns down, the second raises its [RuntimeError]. *)
Theorem server_module_has_tags module b :
  TfState._is_server_module module = Ok b ->
  if b
  then exists tags,
         TfState._extract_tags module = Ok tags /\ TfState.tagged tags
  else TfState._extract_tags module = Raise TfState.RuntimeError.
Proof.
  unfold TfState._is_server_module, TfState._extract_tags.
  destruct (get module "child_modules" (PList [])) as [found | e];
    cbn [rbind]; [ | discriminate ].
  destruct (iter found) as [children | e]; cbn [rbind]; [ | discriminate ].
  intros H. pose proof (children_agree _ _ H) as Hagree.
  destruct b.
  - destruct Hagree as (tags & -> & Htagged). cbn [rbind]. eauto.
  - rewrite Hagree. reflexivity.
Qed.

Lemma server_module_has_tags_witness :
  exists tags,
    TfState._extract_tags Samples.server_module = Ok tags /\
    TfState.tagged tags.
Proof.
  apply (server_module_has_tags Samples.server_module true).
  reflexivity.
Defined.

Lemma server_modules_selected child_modules kept :
  TfState.server_modules child_modules = Ok kept ->
  Forall (fun module => TfState._is_server_module module = Ok true) kept.
Proof.
  revert kept. induction child_modules as [ | m ms IH ]; intros kept.
  - intros [= <-]. constructor.
  - cbn [TfState.server_modules].
    destruct (TfState._is_server_module m) as [keep | e] eqn:Hm;
      cbn [rbind]; [ | discriminate ].
    destruct (TfState.server_modules ms) as [rest | e]; cbn [rbind];
      [ | discriminate ].
    intros [= <-]. destruct keep; [ constructor | ]; auto.
Qed.

Lemma config_entry_tagged tags :
  TfState.tagged tags ->
  (exists entry, TfState.config_entry tags = Ok entry)
  \/ TfState.config_entry tags = Raise KeyError.
Proof.
  intros (d & -> & Hid). unfold TfState.config_entry, Commands.subscript.
  destruct (lookup TfState.REGION_TAG d); cbn [rbind]; [ | now right ].
  unfold dict_get in Hid.
  destruct (lookup TfState.SERVER_ID_TAG d); [ | discriminate Hid ].
  cbn [rbind]. left. eauto.
Qed.

(** X30.  For the modules [main] keeps (those [_is_server_module]
    accepts), [_build_config] never meets the [RuntimeError] of
    [_extract_tags]: it returns one entry per module, or fails with the
    [KeyError] of a missing region tag. *)
Theorem build_config_of_selected child_modules kept :
  TfState.server_modules child_modules = Ok kept ->
  (exists config,
      TfState._build_config kept = Ok config /\
      List.length config = List.length kept)
  \/ TfState._build_config kept = Raise KeyError.
Proof.
  intros Hkept. apply server_modules_selected in Hkept.
  induction Hkept as [ | m ms Hm _ IH ].
  - left. exists []. split; reflexivity.
  - cbn [TfState._build_config].
    destruct (server_module_has_tags_aux m Hm) as (tags & -> & Htagged).
    cbn [rbind].
    destruct (config_entry_tagged tags Htagged) as [[entry ->] | ->];
      cbn [rbind]; [ | now right ].
    destruct IH as [(config & -> & Hlen) | ->]; cbn [rbind]; [ | now right ].
    left. exists (entry :: config). split; [ reflexivity | ].
    cbn [List.length]. now rewrite Hlen.
Qed.

Lemma build_config_of_selected_witness :
  (exists config,
      TfState._build_config [Samples.server_module] = Ok config /\
      List.length config = 1%nat)
  \/ TfState._build_config [Samples.server_module] = Raise KeyError.
Proof.
  apply (build_config_of_selected
           [PDict [("address", PStr "module.network")]; Samples.server_module]
           [Samples.server_module]).
  reflexivity.
Defined.

End ScriptsMore.
